(** * convore.api: a shallow embedding of the Convore API wrapper

    The module [convore/api.py] is a thin mapping layer: transport helpers
    ([get], [post], [_safe_response]), a process-wide credential pair
    ([login]), five entity classes with an [import_from_api] decoder, and
    three resource collections ([Groups], [Topics], [Users]).

    Python objects are mutated in place and any statement may raise, so the
    code is embedded in a state-and-exception monad whose state survives an
    exception.  Dictionaries are [gmap string value]. *)

From Stdlib Require Import ZArith String Ascii DecimalString.
From stdpp Require Import base option gmap strings list.

Set Warnings "-register-all".

Local Open Scope string_scope.
Local Open Scope list_scope.
Local Open Scope Z_scope.

(** ** Values

    What the JSON codec hands to the module, and what callers pass as
    keyword arguments.  JSON numbers are integers here: floating point is
    outside the model. *)

Inductive value : Type :=
| VNone
| VBool (b : bool)
| VInt (n : Z)
| VStr (s : string)
| VList (l : list value)
| VDict (m : gmap string value).

(** ** Exceptions

    The built-in exceptions the module can meet, [HTTPError] of the HTTP
    client, the two classes the module defines ([APIError] with the
    arguments it was raised with, none for the bare class), and
    [OtherError] for an exception of any other class, by its name: what a
    collaborator raises on its own, such as a connection error. *)

Inductive exn : Type :=
| AttributeError
| TypeError
| KeyError
| ValueError
| OverflowError
| NameError
| HTTPError
| LoginFailed
| APIError (args : option value)
| OtherError (cls : string).

Inductive result (A : Type) : Type :=
| Ok (a : A)
| Raise (e : exn).
Arguments Ok {A} a.
Arguments Raise {A} e.

Definition is_ok {A} (r : result A) : bool :=
  match r with Ok _ => true | Raise _ => false end.

#[global] Instance result_ret : MRet result := λ A a, Ok a.
#[global] Instance result_bind : MBind result :=
  λ A B f r, match r with Ok a => f a | Raise e => Raise e end.

(** ** The monad of statements

    [M S A]: a computation over a mutable store [S] that returns an [A] or
    raises.  The store reached when the exception is raised is kept: Python
    does not roll back the assignments made before a failure. *)

Definition M (S A : Type) : Type := S → S * result A.

#[global] Instance M_ret {S} : MRet (M S) := λ A a s, (s, Ok a).
#[global] Instance M_bind {S} : MBind (M S) :=
  λ A B f m s,
    match m s with
    | (s', Ok a) => f a s'
    | (s', Raise e) => (s', Raise e)
    end.

(** An expression that may raise, evaluated without touching the store. *)
Definition lift {S A} (r : result A) : M S A := λ s, (s, r).

Definition modify {S} (f : S → S) : M S unit := λ s, (f s, Ok tt).

(** [self.x = e]: evaluate [e]; the field is written only if it returns. *)
Definition assign {S A} (set : A → S → S) (e : result A) : M S unit :=
  v ← lift e; modify (set v).

(** [self.x.meth(...)]: run a method on the object held in a field.  The
    field keeps whatever the method did to it, also when it raises.  An
    unset field is [None], which has no methods. *)
Definition on_field {S T A} (proj : S → option T) (set : option T → S → S)
    (m : M T A) : M S A :=
  λ s, match proj s with
       | Some o => let '(o', r) := m o in (set (Some o') s, r)
       | None => (s, Raise AttributeError)
       end.

(** [x = C(); x.meth(...)] on a local object: the object after the call,
    unless the method raises (the local is then unreachable). *)
Definition on_new {S T A} (o : T) (m : M T A) : M S T :=
  λ s, match m o with
       | (o', Ok _) => (s, Ok o')
       | (_, Raise e) => (s, Raise e)
       end.

(** [for x in l: body], threading the locals [acc] through the iterations. *)
Fixpoint for_in {S A B} (l : list A) (acc : B) (body : B → A → M S B) : M S B :=
  match l with
  | [] => mret acc
  | x :: l' => acc' ← body acc x; for_in l' acc' body
  end.

(** ** Python primitives used by the module *)

(** [d.get(k, dflt)]: only dictionaries have a [get] method. *)
Definition dict_get (d : value) (k : string) (dflt : value) : result value :=
  match d with
  | VDict m => Ok (default dflt (m !! k))
  | _ => Raise AttributeError
  end.

(** [d[k]] with a string key. *)
Definition getitem (d : value) (k : string) : result value :=
  match d with
  | VDict m => match m !! k with
               | Some v => Ok v
               | None => Raise KeyError
               end
  | _ => Raise TypeError
  end.

Definition str_equal (k : string) (v : value) : bool :=
  match v with
  | VStr s => String.eqb s k
  | _ => false
  end.

(** [k in d] with a string [k]. *)
Definition contains (k : string) (d : value) : result bool :=
  match d with
  | VDict m => Ok (bool_decide (is_Some (m !! k)))
  | VList l => Ok (existsb (str_equal k) l)
  | VStr s => Ok (bool_decide (is_Some (String.index 0 k s)))
  | _ => Raise TypeError
  end.

(** The elements a [for] loop visits.  A dictionary yields its keys (in an
    order Python leaves unspecified), a string its characters. *)
Definition iter (v : value) : result (list value) :=
  match v with
  | VList l => Ok l
  | VDict m => Ok (VStr <$> (map_to_list m).*1)
  | VStr s => Ok ((λ c, VStr (String c EmptyString)) <$> list_ascii_of_string s)
  | _ => Raise TypeError
  end.

(** Truth value of an object in a condition. *)
Definition truthy (v : value) : bool :=
  match v with
  | VNone => false
  | VBool b => b
  | VInt n => negb (Z.eqb n 0)
  | VStr s => negb (String.eqb s "")
  | VList l => negb (bool_decide (l = []))
  | VDict m => negb (bool_decide (dom m = ∅))
  end.

(** A path segment, and [str] of it. *)
Inductive segment : Type :=
| SegStr (s : string)
| SegInt (n : Z).

Definition str (x : segment) : string :=
  match x with
  | SegStr s => s
  | SegInt n => NilZero.string_of_int (Z.to_int n)
  end.

(** ** [datetime.utcfromtimestamp] *)

Record datetime : Type := mk_datetime {
  year : Z; month : Z; day : Z;
  hour : Z; minute : Z; second : Z; microsecond : Z
}.

(** Proleptic Gregorian date of the day [z] days after 1970-01-01. *)
Definition civil_from_days (z : Z) : Z * Z * Z :=
  let z := z + 719468 in
  let era := z / 146097 in
  let doe := z - era * 146097 in
  let yoe := (doe - doe / 1460 + doe / 36524 - doe / 146096) / 365 in
  let doy := doe - (365 * yoe + yoe / 4 - yoe / 100) in
  let mp := (5 * doy + 2) / 153 in
  let d := doy - (153 * mp + 2) / 5 + 1 in
  let m := if mp <? 10 then mp + 3 else mp - 9 in
  let y := yoe + era * 400 + (if m <=? 2 then 1 else 0) in
  (y, m, d).

Definition gmtime (t : Z) : datetime :=
  let '(y, m, d) := civil_from_days (t / 86400) in
  let s := t mod 86400 in
  mk_datetime y m d (s / 3600) (s mod 3600 / 60) (s mod 60) 0.

(** 0001-01-01T00:00:00 and 9999-12-31T23:59:59, in epoch seconds. *)
Definition MIN_TIMESTAMP : Z := -62135596800.
Definition MAX_TIMESTAMP : Z := 253402300799.

(** The first magnitude a Python integer cannot reach as a C double. *)
Definition DOUBLE_OVERFLOW : Z := 2 ^ 1024 - 2 ^ 970.

Definition fromtimestamp_int (t : Z) : result datetime :=
  if (MIN_TIMESTAMP <=? t) && (t <=? MAX_TIMESTAMP) then Ok (gmtime t)
  else if DOUBLE_OVERFLOW <=? Z.abs t then Raise OverflowError
  else Raise ValueError.

(** The argument must be a number ([bool] is a subclass of [int]). *)
Definition utcfromtimestamp (t : value) : result datetime :=
  match t with
  | VInt n => fromtimestamp_int n
  | VBool b => fromtimestamp_int (Z.b2z b)
  | _ => Raise TypeError
  end.

(** ** Transport helpers *)

Definition API_URL : string := "https://convore.com/api/".

Record Response : Type := mk_response {
  status_code : Z;
  content : string
}.

Inductive verb : Type := GET | POST.

(** A call into [requests], by the keyword arguments it is given.  In
    [requests], [params] is sent in the query string and [data] in the body
    of the request. *)
Record Request : Type := mk_request {
  req_verb : verb;
  req_url : string;
  req_params : value;
  req_data : value;
  req_auth : string * string
}.

(** The external collaborators: the HTTP exchange and the JSON codec.
    Either can raise: [requests.get] and [requests.post] on arguments they
    cannot encode or on a connection that fails, the codec on a body that
    is not JSON. *)
Record Client : Type := mk_client {
  send : Request → result Response;
  deserialize : string → result value
}.

(** Module globals.  [auth] is unbound until [login] runs (the module
    initialises [AUTH], a different name, which nothing reads); [sent] is
    the trace of the requests issued: the calls made to the HTTP client,
    those it answered with an exception included. *)
Record World : Type := mk_world {
  auth : option (string * string);
  sent : list Request
}.

(** [Response.raise_for_status]: client and server errors raise. *)
Definition raise_for_status (r : Response) : result unit :=
  if (400 <=? status_code r) && (status_code r <? 600) then Raise HTTPError
  else Ok tt.

Definition _safe_response (r : Response) (error : value) : result Response :=
  match raise_for_status r with
  | Ok _ => Ok r
  | Raise HTTPError =>
      if status_code r =? 401 then Raise LoginFailed
      else if truthy error then Raise (APIError (Some error))
      else Raise (APIError None)
  | Raise e => Raise e
  end.

(** Reading the global [auth]. *)
Definition global_auth : M World (string * string) :=
  λ w, match auth w with
       | Some a => (w, Ok a)
       | None => (w, Raise NameError)
       end.

(** [requests.get(url, params=..., auth=...)] and
    [requests.post(url, params=..., auth=...)]: no [data] is passed.  The
    call returns the response or raises what the client raises. *)
Definition requests_call (C : Client) (v : verb) (url : string)
    (params : value) (a : string * string) : M World Response :=
  λ w, let rq := mk_request v url params VNone a in
       (mk_world (auth w) (sent w ++ [rq]), send C rq).

Definition requests_get (C : Client) := requests_call C GET.
Definition requests_post (C : Client) := requests_call C POST.

Definition get (C : Client) (path : list segment) (kwargs : gmap string value)
    : M World Response :=
  let url := API_URL +:+ String.concat "/" (str <$> path) +:+ ".json" in
  let params := default VNone (kwargs !! "params") in
  a ← global_auth;
  req ← requests_get C url params a;
  let error := default VNone (kwargs !! "error") in
  lift (_safe_response req error).

Definition post (C : Client) (params : value) (path : list segment)
    : M World Response :=
  let url := API_URL +:+ String.concat "/" (str <$> path) +:+ ".json" in
  a ← global_auth;
  r ← requests_post C url params a;
  lift (_safe_response r VNone).

Definition login (username password : string) : M World unit :=
  modify (λ w, mk_world (Some (username, password)) (sent w)).

(** ** Entities *)

Module User.

Record t : Type := mk {
  username : value;
  url : value;
  id : value;
  img : value
}.

Definition __init__ : t := mk VNone VNone VNone VNone.

Definition set_username (v : value) (o : t) : t := mk v (url o) (id o) (img o).
Definition set_url (v : value) (o : t) : t := mk (username o) v (id o) (img o).
Definition set_id (v : value) (o : t) : t := mk (username o) (url o) v (img o).
Definition set_img (v : value) (o : t) : t := mk (username o) (url o) (id o) v.

Definition import_from_api (d : value) : M t unit :=
  assign set_username (dict_get d "username" VNone);;
  assign set_url (dict_get d "url" VNone);;
  assign set_id (dict_get d "id" VNone);;
  assign set_img (dict_get d "img" VNone).

End User.

Module Group.

Record t : Type := mk {
  kind : value;
  members_count : value;
  name : value;
  creator : option User.t;
  url : value;
  slug : value;
  date_latest_message : option datetime;
  date_created : option datetime;
  topics_count : value;
  friends : option (list User.t);
  unread : value;
  id : value;
  joined : bool
}.

Definition __init__ : t :=
  mk VNone VNone VNone None VNone VNone None None VNone None VNone VNone false.

Definition set_kind (v : value) (o : t) : t :=
  mk v (members_count o) (name o) (creator o) (url o) (slug o)
     (date_latest_message o) (date_created o) (topics_count o) (friends o)
     (unread o) (id o) (joined o).
Definition set_members_count (v : value) (o : t) : t :=
  mk (kind o) v (name o) (creator o) (url o) (slug o)
     (date_latest_message o) (date_created o) (topics_count o) (friends o)
     (unread o) (id o) (joined o).
Definition set_name (v : value) (o : t) : t :=
  mk (kind o) (members_count o) v (creator o) (url o) (slug o)
     (date_latest_message o) (date_created o) (topics_count o) (friends o)
     (unread o) (id o) (joined o).
Definition set_creator (v : option User.t) (o : t) : t :=
  mk (kind o) (members_count o) (name o) v (url o) (slug o)
     (date_latest_message o) (date_created o) (topics_count o) (friends o)
     (unread o) (id o) (joined o).
Definition set_url (v : value) (o : t) : t :=
  mk (kind o) (members_count o) (name o) (creator o) v (slug o)
     (date_latest_message o) (date_created o) (topics_count o) (friends o)
     (unread o) (id o) (joined o).
Definition set_slug (v : value) (o : t) : t :=
  mk (kind o) (members_count o) (name o) (creator o) (url o) v
     (date_latest_message o) (date_created o) (topics_count o) (friends o)
     (unread o) (id o) (joined o).
Definition set_date_latest_message (v : datetime) (o : t) : t :=
  mk (kind o) (members_count o) (name o) (creator o) (url o) (slug o)
     (Some v) (date_created o) (topics_count o) (friends o)
     (unread o) (id o) (joined o).
Definition set_date_created (v : datetime) (o : t) : t :=
  mk (kind o) (members_count o) (name o) (creator o) (url o) (slug o)
     (date_latest_message o) (Some v) (topics_count o) (friends o)
     (unread o) (id o) (joined o).
Definition set_topics_count (v : value) (o : t) : t :=
  mk (kind o) (members_count o) (name o) (creator o) (url o) (slug o)
     (date_latest_message o) (date_created o) v (friends o)
     (unread o) (id o) (joined o).
Definition set_friends (v : option (list User.t)) (o : t) : t :=
  mk (kind o) (members_count o) (name o) (creator o) (url o) (slug o)
     (date_latest_message o) (date_created o) (topics_count o) v
     (unread o) (id o) (joined o).
Definition set_unread (v : value) (o : t) : t :=
  mk (kind o) (members_count o) (name o) (creator o) (url o) (slug o)
     (date_latest_message o) (date_created o) (topics_count o) (friends o)
     v (id o) (joined o).
Definition set_id (v : value) (o : t) : t :=
  mk (kind o) (members_count o) (name o) (creator o) (url o) (slug o)
     (date_latest_message o) (date_created o) (topics_count o) (friends o)
     (unread o) v (joined o).
Definition set_joined (v : bool) (o : t) : t :=
  mk (kind o) (members_count o) (name o) (creator o) (url o) (slug o)
     (date_latest_message o) (date_created o) (topics_count o) (friends o)
     (unread o) (id o) v.

(** [self.friends.append(u)] *)
Definition friends_append (u : User.t) : M t unit :=
  λ o, match friends o with
       | Some l => (set_friends (Some (l ++ [u])) o, Ok tt)
       | None => (o, Raise AttributeError)
       end.

Definition import_from_api (d : value) : M t unit :=
  assign set_kind (dict_get d "kind" VNone);;
  assign set_members_count (dict_get d "members_count" VNone);;
  assign set_name (dict_get d "name" VNone);;
  assign set_url (dict_get d "url" VNone);;
  assign set_slug (dict_get d "slug" VNone);;
  assign set_date_latest_message
    (dict_get d "date_latest_message" VNone ≫= utcfromtimestamp);;
  assign set_date_created
    (dict_get d "date_created" VNone ≫= utcfromtimestamp);;
  assign set_topics_count (dict_get d "topics_count" VNone);;
  assign set_unread (dict_get d "unread" VNone);;
  assign set_id (dict_get d "id" VNone);;
  modify (set_creator (Some User.__init__));;
  c ← lift (dict_get d "creator" VNone);
  on_field creator set_creator (User.import_from_api c);;
  modify (set_friends (Some []));;
  present ← lift (contains "friend_list" d);
  if present : bool then
    friend_list ← lift (dict_get d "friend_list" VNone ≫= iter);
    for_in friend_list tt (λ _ friend,
      _user ← on_new User.__init__ (User.import_from_api friend);
      friends_append _user)
  else mret tt.

End Group.

Module Topic.

Record t : Type := mk {
  id : value;
  name : value;
  slug : value;
  url : value;
  message_count : value;
  unread : value;
  date_created : option datetime;
  date_latest_message : option datetime;
  creator : option User.t
}.

Definition __init__ : t :=
  mk VNone VNone VNone VNone VNone VNone None None None.

Definition set_id (v : value) (o : t) : t :=
  mk v (name o) (slug o) (url o) (message_count o) (unread o)
     (date_created o) (date_latest_message o) (creator o).
Definition set_name (v : value) (o : t) : t :=
  mk (id o) v (slug o) (url o) (message_count o) (unread o)
     (date_created o) (date_latest_message o) (creator o).
Definition set_slug (v : value) (o : t) : t :=
  mk (id o) (name o) v (url o) (message_count o) (unread o)
     (date_created o) (date_latest_message o) (creator o).
Definition set_url (v : value) (o : t) : t :=
  mk (id o) (name o) (slug o) v (message_count o) (unread o)
     (date_created o) (date_latest_message o) (creator o).
Definition set_message_count (v : value) (o : t) : t :=
  mk (id o) (name o) (slug o) (url o) v (unread o)
     (date_created o) (date_latest_message o) (creator o).
Definition set_unread (v : value) (o : t) : t :=
  mk (id o) (name o) (slug o) (url o) (message_count o) v
     (date_created o) (date_latest_message o) (creator o).
Definition set_date_created (v : datetime) (o : t) : t :=
  mk (id o) (name o) (slug o) (url o) (message_count o) (unread o)
     (Some v) (date_latest_message o) (creator o).
Definition set_date_latest_message (v : datetime) (o : t) : t :=
  mk (id o) (name o) (slug o) (url o) (message_count o) (unread o)
     (date_created o) (Some v) (creator o).
Definition set_creator (v : option User.t) (o : t) : t :=
  mk (id o) (name o) (slug o) (url o) (message_count o) (unread o)
     (date_created o) (date_latest_message o) v.

Definition import_from_api (data : value) : M t unit :=
  assign set_id (dict_get data "id" VNone);;
  assign set_name (dict_get data "name" VNone);;
  assign set_slug (dict_get data "slug" VNone);;
  assign set_url (dict_get data "url" VNone);;
  assign set_message_count (dict_get data "message_count" VNone);;
  assign set_unread (dict_get data "unread" VNone);;
  assign set_date_created
    (dict_get data "date_created" VNone ≫= utcfromtimestamp);;
  assign set_date_latest_message
    (dict_get data "date_latest_message" VNone ≫= utcfromtimestamp);;
  modify (set_creator (Some User.__init__));;
  c ← lift (dict_get data "creator" VNone);
  on_field creator set_creator (User.import_from_api c).

End Topic.

Module Message.

Record t : Type := mk {
  id : value;
  message : value;
  date_created : option datetime;
  user : option User.t
}.

Definition __init__ : t := mk VNone VNone None None.

Definition set_id (v : value) (o : t) : t :=
  mk v (message o) (date_created o) (user o).
Definition set_message (v : value) (o : t) : t :=
  mk (id o) v (date_created o) (user o).
Definition set_date_created (v : datetime) (o : t) : t :=
  mk (id o) (message o) (Some v) (user o).
Definition set_user (v : option User.t) (o : t) : t :=
  mk (id o) (message o) (date_created o) v.

Definition import_from_api (data : value) : M t unit :=
  assign set_id (dict_get data "id" VNone);;
  assign set_message (dict_get data "message" VNone);;
  assign set_date_created
    (dict_get data "date_created" VNone ≫= utcfromtimestamp);;
  modify (set_user (Some User.__init__));;
  u ← lift (dict_get data "user" VNone);
  on_field user set_user (User.import_from_api u).

End Message.

Module Category.

Record t : Type := mk {
  groups_count : value;
  slug : value;
  name : value;
  groups : value
}.

Definition __init__ : t := mk VNone VNone VNone VNone.

Definition set_groups_count (v : value) (o : t) : t :=
  mk v (slug o) (name o) (groups o).
Definition set_slug (v : value) (o : t) : t :=
  mk (groups_count o) v (name o) (groups o).
Definition set_name (v : value) (o : t) : t :=
  mk (groups_count o) (slug o) v (groups o).

Definition import_from_api (d : value) : M t unit :=
  assign set_groups_count (dict_get d "groups_count" VNone);;
  assign set_slug (dict_get d "slug" VNone);;
  assign set_name (dict_get d "name" VNone).

End Category.

(** ** Resource collections *)

Module Groups.

Definition get_user_groups (C : Client) : M World (list Group.t) :=
  response ← get C [SegStr "groups"] ∅;
  body ← lift (deserialize C (content response));
  envelope ← lift (getitem body "groups");
  items ← lift (iter envelope);
  for_in items [] (λ groups _group,
    group ← on_new Group.__init__ (Group.import_from_api _group);
    let group := Group.set_joined true group in
    mret (groups ++ [group])).

Definition get_group (C : Client) (group_id : segment) : M World Group.t :=
  response ← get C [SegStr "groups"; group_id] ∅;
  body ← lift (deserialize C (content response));
  _group ← lift (getitem body "group");
  on_new Group.__init__ (Group.import_from_api _group).

Definition get_group_members (C : Client) (group_id : segment)
    : M World (list User.t) :=
  response ← get C [SegStr "groups"; group_id; SegStr "members"] ∅;
  body ← lift (deserialize C (content response));
  envelope ← lift (getitem body "members");
  items ← lift (iter envelope);
  for_in items [] (λ users member,
    u ← lift (dict_get member "user" VNone);
    user ← on_new User.__init__ (User.import_from_api u);
    mret (users ++ [user])).

Definition get_group_online_members (C : Client) (group_id : segment)
    : M World (list User.t) :=
  response ← get C [SegStr "groups"; group_id; SegStr "online"] ∅;
  body ← lift (deserialize C (content response));
  envelope ← lift (getitem body "online");
  items ← lift (iter envelope);
  for_in items [] (λ users online,
    user ← on_new User.__init__ (User.import_from_api online);
    mret (users ++ [user])).

Definition get_group_topics (C : Client) (group_id : segment)
    : M World (list Topic.t) :=
  response ← get C [SegStr "groups"; group_id; SegStr "topics"] ∅;
  body ← lift (deserialize C (content response));
  envelope ← lift (getitem body "topics");
  items ← lift (iter envelope);
  for_in items [] (λ topics _topic,
    topic ← on_new Topic.__init__ (Topic.import_from_api _topic);
    mret (topics ++ [topic])).

End Groups.

Module Topics.

Definition get_topic (C : Client) (topic_id : segment) : M World Topic.t :=
  response ← get C [SegStr "topics"; topic_id] ∅;
  body ← lift (deserialize C (content response));
  _topic ← lift (getitem body "topic");
  on_new Topic.__init__ (Topic.import_from_api _topic).

Definition get_messages (C : Client) (topic_id : segment)
    : M World (list Message.t) :=
  response ← get C [SegStr "topics"; topic_id; SegStr "messages"] ∅;
  body ← lift (deserialize C (content response));
  envelope ← lift (getitem body "messages");
  items ← lift (iter envelope);
  for_in items [] (λ messages _message,
    message ← on_new Message.__init__ (Message.import_from_api _message);
    mret (messages ++ [message])).

End Topics.

Module Users.

Definition get_user (C : Client) (user_id : segment) : M World User.t :=
  response ← get C [SegStr "users"; user_id] ∅;
  body ← lift (deserialize C (content response));
  _user ← lift (getitem body "user");
  on_new User.__init__ (User.import_from_api _user).

End Users.

(** Modelled from the spec: a re-serializer of groups, which the module does
    not have.  Section 8 of the specification speaks of decoding a group
    mapping and then re-serializing it with respect to the five fields id,
    slug, name, members_count and topics_count; this writes those five
    fields back under the keys they were read from. *)
Definition reserialize_group (g : Group.t) : value :=
  VDict (<["id" := Group.id g]>
        (<["slug" := Group.slug g]>
        (<["name" := Group.name g]>
        (<["members_count" := Group.members_count g]>
        (<["topics_count" := Group.topics_count g]> ∅))))).

(** ** The calendar, the other way round

    The ordinal of a date as CPython's [datetime.py] computes it
    ([_is_leap], [_days_before_year], [_days_in_month],
    [_days_before_month], [_ymd2ord]) and [calendar.timegm] on top of it:
    the yardstick for [gmtime] above. *)

Definition is_leap (y : Z) : bool :=
  (y mod 4 =? 0) && (negb (y mod 100 =? 0) || (y mod 400 =? 0)).

Definition days_before_year (y : Z) : Z :=
  let y := y - 1 in y * 365 + y / 4 - y / 100 + y / 400.

Definition days_in_month (y m : Z) : Z :=
  if m =? 2 then (if is_leap y then 29 else 28)
  else if (m =? 4) || (m =? 6) || (m =? 9) || (m =? 11) then 30 else 31.

Definition days_before_month (y m : Z) : Z :=
  match m with
  | 1 => 0 | 2 => 31 | 3 => 59 | 4 => 90 | 5 => 120 | 6 => 151
  | 7 => 181 | 8 => 212 | 9 => 243 | 10 => 273 | 11 => 304 | _ => 334
  end + (if (2 <? m) && is_leap y then 1 else 0).

Definition ymd2ord (y m d : Z) : Z :=
  days_before_year y + days_before_month y m + d.

Definition timegm (dt : datetime) : Z :=
  (ymd2ord (year dt) (month dt) (day dt) - 719163) * 86400
  + hour dt * 3600 + minute dt * 60 + second dt.

Definition valid_date (y m d : Z) : bool :=
  (1 <=? m) && (m <=? 12) && (1 <=? d) && (d <=? days_in_month y m).

(** ** Vocabulary of the statements *)

(** What [d.get(k, None)] reads in a dictionary [m]. *)
Definition lookup_or_none (m : gmap string value) (k : string) : value :=
  default VNone (m !! k).

(** A field decoded as a scalar: the absent marker when the key is missing,
    the mapped value when it is present. *)
Definition scalar_of (m : gmap string value) (k : string) (v : value) : Prop :=
  (m !! k = None → v = VNone) ∧ (∀ x, m !! k = Some x → v = x).

(** The target of a request for [path]. *)
Definition url_of (path : list segment) : string :=
  API_URL +:+ String.concat "/" (str <$> path) +:+ ".json".

(** HTTP error statuses: client errors and server errors. *)
Definition error_status (s : Z) : Prop := 400 ≤ s < 600.

Definition is_dict (v : value) : Prop := ∃ m, v = VDict m.

(** The user a mapping decodes to. *)
Definition decoded_user (m : gmap string value) : User.t :=
  (User.import_from_api (VDict m) User.__init__).1.

(** The body of the loop over [friend_list] in [Group.import_from_api]. *)
Definition friends_body (_ : unit) (friend : value) : M Group.t unit :=
  _user ← on_new User.__init__ (User.import_from_api friend);
  Group.friends_append _user.

(** A computation that leaves the observation [f] of the store unchanged,
    whether it returns or raises. *)
Definition keeps {S A X} (f : S → X) (m : M S A) : Prop :=
  ∀ s, f (m s).1 = f s.

(** The keys each decoder reads as scalars. *)
Definition User_scalars : list string := ["username"; "url"; "id"; "img"].
Definition Group_scalars : list string :=
  ["kind"; "members_count"; "name"; "url"; "slug"; "topics_count"; "unread";
   "id"].
Definition Topic_scalars : list string :=
  ["id"; "name"; "slug"; "url"; "message_count"; "unread"].
Definition Message_scalars : list string := ["id"; "message"].
Definition Category_scalars : list string := ["groups_count"; "slug"; "name"].

(** The five fields of the round trip. *)
Definition roundtrip_keys : list string :=
  ["id"; "slug"; "name"; "members_count"; "topics_count"].

(** The entity a value decodes to, as in [x = C(); x.import_from_api(v)]. *)
Definition decode {T} (init : T) (import : value → M T unit) (v : value)
    : result T :=
  match import v init with
  | (o, Ok _) => Ok o
  | (_, Raise e) => Raise e
  end.

(** What one element of the envelope becomes in [Groups.get_user_groups]
    and in [Groups.get_group_members]. *)
Definition decode_joined (v : value) : result Group.t :=
  match decode Group.__init__ Group.import_from_api v with
  | Ok g => Ok (Group.set_joined true g)
  | Raise e => Raise e
  end.

Definition decode_member (v : value) : result User.t :=
  match dict_get v "user" VNone with
  | Ok u => decode User.__init__ User.import_from_api u
  | Raise e => Raise e
  end.

(** An operation on [path] that fails when the decoded body lacks [key]. *)
Definition envelope_strict {T} (C : Client) (path : list segment)
    (key : string) (op : M World T) : Prop :=
  ∀ w w' resp (m : gmap string value),
    get C path ∅ w = (w', Ok resp) →
    deserialize C (content resp) = Ok (VDict m) →
    m !! key = None →
    op w = (w', Raise KeyError).

(** An operation on [path] that decodes the array under [key] element by
    element, in the order of the array. *)
Definition envelope_ordered {T} (C : Client) (path : list segment)
    (key : string) (dec : value → result T) (op : M World (list T)) : Prop :=
  ∀ w w' resp (m : gmap string value) items,
    get C path ∅ w = (w', Ok resp) →
    deserialize C (content resp) = Ok (VDict m) →
    m !! key = Some (VList items) →
    ∀ es, (op w).2 = Ok es ↔ Forall2 (λ v e, dec v = Ok e) items es.

(** The resource operations by name, the path each one requests and the
    envelope key it reads (lines 209-295 of the module). *)
Inductive operation : Type :=
| GetUserGroups
| GetGroup (group_id : segment)
| GetGroupMembers (group_id : segment)
| GetGroupOnlineMembers (group_id : segment)
| GetGroupTopics (group_id : segment)
| GetTopic (topic_id : segment)
| GetMessages (topic_id : segment)
| GetUser (user_id : segment).

Definition endpoint (o : operation) : list segment :=
  match o with
  | GetUserGroups => [SegStr "groups"]
  | GetGroup i => [SegStr "groups"; i]
  | GetGroupMembers i => [SegStr "groups"; i; SegStr "members"]
  | GetGroupOnlineMembers i => [SegStr "groups"; i; SegStr "online"]
  | GetGroupTopics i => [SegStr "groups"; i; SegStr "topics"]
  | GetTopic i => [SegStr "topics"; i]
  | GetMessages i => [SegStr "topics"; i; SegStr "messages"]
  | GetUser i => [SegStr "users"; i]
  end.

Definition envelope_key (o : operation) : string :=
  match o with
  | GetUserGroups => "groups"
  | GetGroup _ => "group"
  | GetGroupMembers _ => "members"
  | GetGroupOnlineMembers _ => "online"
  | GetGroupTopics _ => "topics"
  | GetTopic _ => "topic"
  | GetMessages _ => "messages"
  | GetUser _ => "user"
  end.

(** A computation run for its effect and its outcome, the value dropped. *)
Definition discard {S A} (m : M S A) : M S unit := m ≫= λ _, mret tt.

Definition run_operation (C : Client) (o : operation) : M World unit :=
  match o with
  | GetUserGroups => discard (Groups.get_user_groups C)
  | GetGroup i => discard (Groups.get_group C i)
  | GetGroupMembers i => discard (Groups.get_group_members C i)
  | GetGroupOnlineMembers i => discard (Groups.get_group_online_members C i)
  | GetGroupTopics i => discard (Groups.get_group_topics C i)
  | GetTopic i => discard (Topics.get_topic C i)
  | GetMessages i => discard (Topics.get_messages C i)
  | GetUser i => discard (Users.get_user C i)
  end.

(** The request an operation issues with the credentials [a]. *)
Definition request_of (o : operation) (a : string * string) : Request :=
  mk_request GET (url_of (endpoint o)) VNone VNone a.

(** JSON values a [for] loop cannot iterate over. *)
Definition not_iterable (v : value) : Prop :=
  v = VNone ∨ (∃ b, v = VBool b) ∨ (∃ n, v = VInt n).

(** An element of the [members] array as [get_group_members] needs it: a
    mapping whose [user] key holds a mapping. *)
Definition wrapped_user (v : value) : Prop :=
  ∃ (m u : gmap string value), v = VDict m ∧ m !! "user" = Some (VDict u).

(** An operation that does its transport through one [get] on [path]: the
    globals afterwards are those [get] leaves, and an exception of [get],
    of the codec or of the lookup of [key] in the body is the
    operation's. *)
Definition transport_of {T} (C : Client) (path : list segment) (key : string)
    (op : M World T) (w : World) : Prop :=
  (op w).1 = (get C path ∅ w).1 ∧
  match (get C path ∅ w).2 with
  | Raise e => (op w).2 = Raise e
  | Ok resp =>
      match deserialize C (content resp) with
      | Raise e => (op w).2 = Raise e
      | Ok b =>
          match getitem b key with
          | Raise e => (op w).2 = Raise e
          | Ok _ => True
          end
      end
  end.

(** A list operation whose first undecodable element decides the outcome:
    the exception of that element is raised and no partial list comes
    back. *)
Definition first_failure {T} (C : Client) (path : list segment)
    (key : string) (dec : value → result T) (op : M World (list T)) : Prop :=
  ∀ w w' resp (m : gmap string value) good ys bad rest e,
    get C path ∅ w = (w', Ok resp) →
    deserialize C (content resp) = Ok (VDict m) →
    m !! key = Some (VList (good ++ bad :: rest)) →
    Forall2 (λ v y, dec v = Ok y) good ys →
    dec bad = Raise e →
    op w = (w', Raise e).

(** A list operation on the edges of its envelope: the empty array gives
    the empty list, and a value that cannot be iterated over (null, a
    boolean, a number) raises [TypeError]. *)
Definition envelope_edges {T} (C : Client) (path : list segment)
    (key : string) (op : M World (list T)) : Prop :=
  ∀ w w' resp (m : gmap string value),
    get C path ∅ w = (w', Ok resp) →
    deserialize C (content resp) = Ok (VDict m) →
    (m !! key = Some (VList []) → op w = (w', Ok [])) ∧
    (∀ v, m !! key = Some v → not_iterable v → op w = (w', Raise TypeError)).

(** [str] of an entity's [id] used as a path segment.  Identifiers are
    integers or strings; [py_str] stands for Python's [str] on every other
    object. *)
Definition id_segment (py_str : value → string) (v : value) : segment :=
  match v with
  | VInt n => SegInt n
  | VStr s => SegStr s
  | _ => SegStr (py_str v)
  end.

(** The convenience methods of the entities ([Group.members],
    [Group.online_members], [Group.topics], [Topic.messages]). *)
Definition Group_members (C : Client) (py_str : value → string)
    (self : Group.t) : M World (list User.t) :=
  Groups.get_group_members C (id_segment py_str (Group.id self)).

Definition Group_online_members (C : Client) (py_str : value → string)
    (self : Group.t) : M World (list User.t) :=
  Groups.get_group_online_members C (id_segment py_str (Group.id self)).

Definition Group_topics (C : Client) (py_str : value → string)
    (self : Group.t) : M World (list Topic.t) :=
  Groups.get_group_topics C (id_segment py_str (Group.id self)).

Definition Topic_messages (C : Client) (py_str : value → string)
    (self : Topic.t) : M World (list Message.t) :=
  Topics.get_messages C (id_segment py_str (Topic.id self)).

(** ** Sample data *)

(** A server that answers every request with status [s], and a codec that
    decodes every body to [body]. *)
Definition fixed_client (s : Z) (body : value) : Client :=
  mk_client (λ _, Ok (mk_response s "")) (λ _, Ok body).

(** An HTTP client that raises [e] on every call: no response comes
    back. *)
Definition failing_client (e : exn) : Client :=
  mk_client (λ _, Raise e) (λ _, Ok VNone).

Definition logged_in : World := mk_world (Some ("user", "secret")) [].

(** The module as imported: [login] has not run. *)
Definition logged_out : World := mk_world None [].

Definition sample_user : gmap string value :=
  {[ "id" := VInt 1; "username" := VStr "a" ]}.

Definition sample_group : gmap string value :=
  {[ "id" := VInt 7; "slug" := VStr "rocq"; "name" := VStr "Rocq";
     "members_count" := VInt 2; "topics_count" := VInt 5;
     "date_created" := VInt 0; "date_latest_message" := VInt 86400;
     "creator" := VDict sample_user;
     "friend_list" := VList [VDict sample_user; VDict ∅] ]}.

Definition sample_topic : gmap string value :=
  {[ "id" := VInt 3; "name" := VStr "news";
     "date_created" := VInt 0; "date_latest_message" := VInt 60;
     "creator" := VDict sample_user ]}.

Definition sample_message : gmap string value :=
  {[ "id" := VInt 1; "message" := VStr "hi"; "date_created" := VInt 0;
     "user" := VDict sample_user ]}.

(** Servers whose payload carries a [joined] key of its own. *)
Definition groups_client : Client :=
  fixed_client 200
    (VDict {[ "groups" :=
       VList [VDict (<["joined" := VBool false]> sample_group)] ]}).

Definition group_client : Client :=
  fixed_client 200
    (VDict {[ "group" := VDict (<["joined" := VBool true]> sample_group) ]}).

Definition members_client : Client :=
  fixed_client 200
    (VDict {[ "members" := VList [VDict {[ "user" := VDict sample_user ]}] ]}).

(** * Properties *)

(** ** Running the monad *)

(** Membership in a literal list. *)
Ltac in_list :=
  solve [repeat first [apply list_elem_of_here | apply list_elem_of_further]].

Lemma bind_run {S A B} (m : M S A) (f : A → M S B) (s : S) :
  (m ≫= f) s = match m s with
               | (s', Ok a) => f a s'
               | (s', Raise e) => (s', Raise e)
               end.
Proof. reflexivity. Qed.

Lemma assign_ok {S A} (set : A → S → S) (v : A) (s : S) :
  assign set (Ok v) s = (set v s, Ok tt).
Proof. reflexivity. Qed.

Lemma assign_raise {S A} (set : A → S → S) (e : exn) (s : S) :
  assign set (Raise e : result A) s = (s, Raise e).
Proof. reflexivity. Qed.

Lemma scalar_of_lookup m k : scalar_of m k (lookup_or_none m k).
Proof.
  unfold scalar_of, lookup_or_none. split.
  - intros ->. reflexivity.
  - intros x ->. reflexivity.
Qed.

Lemma dict_get_dict m k : dict_get (VDict m) k VNone = Ok (lookup_or_none m k).
Proof. reflexivity. Qed.

Lemma dict_get_not_dict d k :
  ¬ is_dict d → dict_get d k VNone = Raise AttributeError.
Proof.
  intros Hd. destruct d; try reflexivity. exfalso. apply Hd. by eexists.
Qed.

(** ** Examples *)

Example utc_epoch :
  utcfromtimestamp (VInt 0) = Ok (mk_datetime 1970 1 1 0 0 0 0).
Proof. reflexivity. Qed.

Example utc_2011 :
  utcfromtimestamp (VInt 1297436893) = Ok (mk_datetime 2011 2 11 15 8 13 0).
Proof. vm_compute. reflexivity. Qed.

Example utc_none : utcfromtimestamp VNone = Raise TypeError.
Proof. reflexivity. Qed.

(** ** Users *)

Lemma User_import_dict m u :
  User.import_from_api (VDict m) u =
    (User.mk (lookup_or_none m "username") (lookup_or_none m "url")
             (lookup_or_none m "id") (lookup_or_none m "img"), Ok tt).
Proof. reflexivity. Qed.

Lemma User_import_not_dict d u :
  ¬ is_dict d → User.import_from_api d u = (u, Raise AttributeError).
Proof.
  intros Hd. unfold User.import_from_api.
  rewrite bind_run, (dict_get_not_dict d _ Hd). reflexivity.
Qed.

Lemma decoded_user_eq m :
  decoded_user m =
    User.mk (lookup_or_none m "username") (lookup_or_none m "url")
            (lookup_or_none m "id") (lookup_or_none m "img").
Proof. reflexivity. Qed.

(** ** Transport helpers *)

Lemma raise_for_status_error r :
  error_status (status_code r) → raise_for_status r = Raise HTTPError.
Proof.
  unfold error_status, raise_for_status. intros [H1 H2].
  apply Z.leb_le in H1. apply Z.ltb_lt in H2. rewrite H1, H2. reflexivity.
Qed.

Lemma raise_for_status_fine r :
  ¬ error_status (status_code r) → raise_for_status r = Ok tt.
Proof.
  unfold error_status, raise_for_status. intros H.
  destruct (400 <=? status_code r) eqn:H1; [|reflexivity].
  destruct (status_code r <? 600) eqn:H2; [|reflexivity].
  apply Z.leb_le in H1. apply Z.ltb_lt in H2. lia.
Qed.

Lemma safe_response_401 r error :
  status_code r = 401 → _safe_response r error = Raise LoginFailed.
Proof.
  intros H. unfold _safe_response.
  rewrite raise_for_status_error by (unfold error_status; lia).
  rewrite H. reflexivity.
Qed.

Lemma safe_response_error r error :
  error_status (status_code r) → status_code r ≠ 401 →
  _safe_response r error =
    Raise (APIError (if truthy error then Some error else None)).
Proof.
  intros He Hn. unfold _safe_response. rewrite raise_for_status_error by done.
  apply Z.eqb_neq in Hn. rewrite Hn. by destruct (truthy error).
Qed.

Lemma safe_response_fine r error :
  ¬ error_status (status_code r) → _safe_response r error = Ok r.
Proof.
  intros H. unfold _safe_response. by rewrite raise_for_status_fine.
Qed.

Lemma get_run C path kwargs w a :
  auth w = Some a →
  get C path kwargs w =
    let rq := mk_request GET (url_of path) (lookup_or_none kwargs "params")
                         VNone a in
    (mk_world (auth w) (sent w ++ [rq]),
     r ← send C rq; _safe_response r (lookup_or_none kwargs "error")).
Proof.
  intros Ha. destruct w as [o tr]. simpl in Ha. subst o.
  unfold get. rewrite bind_run. cbn [global_auth auth].
  rewrite bind_run. unfold requests_get, requests_call. cbv zeta.
  cbn [auth sent]. by destruct (send C _).
Qed.

Lemma post_run C params path w a :
  auth w = Some a →
  post C params path w =
    let rq := mk_request POST (url_of path) params VNone a in
    (mk_world (auth w) (sent w ++ [rq]),
     r ← send C rq; _safe_response r VNone).
Proof.
  intros Ha. destruct w as [o tr]. simpl in Ha. subst o.
  unfold post. rewrite bind_run. cbn [global_auth auth].
  rewrite bind_run. unfold requests_post, requests_call. cbv zeta.
  cbn [auth sent]. by destruct (send C _).
Qed.

(** Before [login] the global [auth] is unbound: nothing is sent. *)
Lemma get_before_login C path kwargs w :
  auth w = None → get C path kwargs w = (w, Raise NameError).
Proof.
  intros Ha. destruct w as [o tr]. simpl in Ha. subst o. reflexivity.
Qed.

Lemma status_200_fine : ¬ error_status 200.
Proof. unfold error_status. lia. Qed.

Lemma post_before_login C params path w :
  auth w = None → post C params path w = (w, Raise NameError).
Proof.
  intros Ha. destruct w as [o tr]. simpl in Ha. subst o. reflexivity.
Qed.

Lemma not_own_extension {A} (l : list A) x : l ≠ l ++ [x].
Proof.
  intros H. apply (f_equal length) in H. rewrite length_app in H.
  simpl in H. lia.
Qed.

(** A call that handed a request to the HTTP client had credentials, and
    its outcome is decided by what the client did with that request. *)
Lemma get_issued C path kwargs w rq :
  sent (get C path kwargs w).1 = sent w ++ [rq] →
  (get C path kwargs w).2
    = (r ← send C rq; _safe_response r (lookup_or_none kwargs "error")).
Proof.
  destruct (auth w) as [a|] eqn:Ha.
  - rewrite (get_run _ _ _ _ _ Ha). cbv zeta. cbn [fst snd sent].
    intros H. apply app_inv_head in H. by injection H as <-.
  - rewrite (get_before_login _ _ _ _ Ha). cbn [fst].
    intros H. by apply not_own_extension in H.
Qed.

Lemma post_issued C params path w rq :
  sent (post C params path w).1 = sent w ++ [rq] →
  (post C params path w).2 = (r ← send C rq; _safe_response r VNone).
Proof.
  destruct (auth w) as [a|] eqn:Ha.
  - rewrite (post_run _ _ _ _ _ Ha). cbv zeta. cbn [fst snd sent].
    intros H. apply app_inv_head in H. by injection H as <-.
  - rewrite (post_before_login _ _ _ _ Ha). cbn [fst].
    intros H. by apply not_own_extension in H.
Qed.

(** C1: take a transport call, [get] or [post], that handed the request
    [rq] to the HTTP client and got the response [r].  If the status of
    [r] is 401 the call fails with [LoginFailed], whatever error message
    the caller gave.  If it is any other error status the call fails with
    [APIError]: carrying the caller's message when there is one, and the
    bare [APIError] when there is none (the test is [if error], so an
    absent message, [None] or an empty one count as none; [post] takes no
    message at all).  On every other status the call returns [r]
    itself. *)
Theorem transport_status_mapping C w path kwargs params rq r :
  send C rq = Ok r →
  let error := lookup_or_none kwargs "error" in
  (sent (get C path kwargs w).1 = sent w ++ [rq] →
     (status_code r = 401 → (get C path kwargs w).2 = Raise LoginFailed) ∧
     (error_status (status_code r) → status_code r ≠ 401 →
        truthy error = true →
        (get C path kwargs w).2 = Raise (APIError (Some error))) ∧
     (error_status (status_code r) → status_code r ≠ 401 →
        truthy error = false →
        (get C path kwargs w).2 = Raise (APIError None)) ∧
     (¬ error_status (status_code r) → (get C path kwargs w).2 = Ok r)) ∧
  (sent (post C params path w).1 = sent w ++ [rq] →
     (status_code r = 401 → (post C params path w).2 = Raise LoginFailed) ∧
     (error_status (status_code r) → status_code r ≠ 401 →
        (post C params path w).2 = Raise (APIError None)) ∧
     (¬ error_status (status_code r) → (post C params path w).2 = Ok r)).
Proof.
  intros Hr error. split.
  - intros Hs. rewrite (get_issued _ _ _ _ _ Hs), Hr.
    cbn [mbind result_bind]. fold error. repeat split.
    + apply safe_response_401.
    + intros He Hn Ht. rewrite safe_response_error by done. by rewrite Ht.
    + intros He Hn Ht. rewrite safe_response_error by done. by rewrite Ht.
    + apply safe_response_fine.
  - intros Hs. rewrite (post_issued _ _ _ _ _ Hs), Hr.
    cbn [mbind result_bind]. repeat split.
    + apply safe_response_401.
    + intros He Hn. by rewrite safe_response_error.
    + apply safe_response_fine.
Qed.

Lemma transport_status_mapping_witness :
  (get (fixed_client 401 VNone) [SegStr "groups"]
       {[ "error" := VStr "no groups" ]} logged_in).2 = Raise LoginFailed ∧
  (get (fixed_client 500 VNone) [SegStr "groups"]
       {[ "error" := VStr "no groups" ]} logged_in).2
    = Raise (APIError (Some (VStr "no groups"))) ∧
  (get (fixed_client 500 VNone) [SegStr "groups"] ∅ logged_in).2
    = Raise (APIError None) ∧
  (get (fixed_client 500 VNone) [SegStr "groups"]
       {[ "error" := VStr "" ]} logged_in).2 = Raise (APIError None) ∧
  (post (fixed_client 404 VNone) (VDict {[ "name" := VStr "rocq" ]})
        [SegStr "groups"; SegStr "create"] logged_in).2
    = Raise (APIError None) ∧
  (post (fixed_client 200 VNone) (VDict {[ "name" := VStr "rocq" ]})
        [SegStr "groups"; SegStr "create"] logged_in).2
    = Ok (mk_response 200 "").
Proof.
  pose (rg := mk_request GET "https://convore.com/api/groups.json" VNone
                VNone ("user", "secret")).
  pose (rp := mk_request POST "https://convore.com/api/groups/create.json"
                (VDict {[ "name" := VStr "rocq" ]}) VNone
                ("user", "secret")).
  assert (H500 : error_status 500) by (unfold error_status; lia).
  assert (H404 : error_status 404) by (unfold error_status; lia).
  repeat apply conj.
  - destruct (transport_status_mapping (fixed_client 401 VNone) logged_in
                [SegStr "groups"] {[ "error" := VStr "no groups" ]} VNone
                rg (mk_response 401 "") eq_refl) as [H _].
    destruct (H eq_refl) as [H' _]. apply H'. reflexivity.
  - destruct (transport_status_mapping (fixed_client 500 VNone) logged_in
                [SegStr "groups"] {[ "error" := VStr "no groups" ]} VNone
                rg (mk_response 500 "") eq_refl) as [H _].
    destruct (H eq_refl) as (_ & H' & _).
    apply H'; [exact H500|simpl; lia|reflexivity].
  - destruct (transport_status_mapping (fixed_client 500 VNone) logged_in
                [SegStr "groups"] ∅ VNone
                rg (mk_response 500 "") eq_refl) as [H _].
    destruct (H eq_refl) as (_ & _ & H' & _).
    apply H'; [exact H500|simpl; lia|reflexivity].
  - destruct (transport_status_mapping (fixed_client 500 VNone) logged_in
                [SegStr "groups"] {[ "error" := VStr "" ]} VNone
                rg (mk_response 500 "") eq_refl) as [H _].
    destruct (H eq_refl) as (_ & _ & H' & _).
    apply H'; [exact H500|simpl; lia|reflexivity].
  - destruct (transport_status_mapping (fixed_client 404 VNone) logged_in
                [SegStr "groups"; SegStr "create"] ∅
                (VDict {[ "name" := VStr "rocq" ]})
                rp (mk_response 404 "") eq_refl) as [_ H].
    destruct (H eq_refl) as (_ & H' & _).
    apply H'; [exact H404|simpl; lia].
  - destruct (transport_status_mapping (fixed_client 200 VNone) logged_in
                [SegStr "groups"; SegStr "create"] ∅
                (VDict {[ "name" := VStr "rocq" ]})
                rp (mk_response 200 "") eq_refl) as [_ H].
    destruct (H eq_refl) as (_ & _ & H'). apply H'. exact status_200_fine.
Defined.

(** C8: once logged in, [get] and [post] each issue one request, whose URL
    is the base URL, then the string forms of the path segments joined with
    a slash, then the suffix [.json]. *)
Theorem transport_url C w a path kwargs params :
  auth w = Some a →
  (∃ rq, sent (get C path kwargs w).1 = sent w ++ [rq] ∧
         req_url rq =
           "https://convore.com/api/" +:+ String.concat "/" (str <$> path)
             +:+ ".json") ∧
  (∃ rq, sent (post C params path w).1 = sent w ++ [rq] ∧
         req_url rq =
           "https://convore.com/api/" +:+ String.concat "/" (str <$> path)
             +:+ ".json").
Proof.
  intros Ha.
  rewrite (get_run _ _ _ _ _ Ha), (post_run _ _ _ _ _ Ha). cbn [fst sent].
  split; eexists; (split; [reflexivity|]); reflexivity.
Qed.

Lemma transport_url_witness :
  (∃ rq, sent (get (fixed_client 200 VNone)
                   [SegStr "groups"; SegInt 42; SegStr "members"] ∅
                   logged_in).1 = [rq] ∧
         req_url rq = "https://convore.com/api/groups/42/members.json") ∧
  (∃ rq, sent (post (fixed_client 200 VNone) VNone
                    [SegStr "topics"; SegInt (-7)] logged_in).1 = [rq] ∧
         req_url rq = "https://convore.com/api/topics/-7.json").
Proof.
  split.
  - destruct (transport_url (fixed_client 200 VNone) logged_in
                ("user", "secret")
                [SegStr "groups"; SegInt 42; SegStr "members"] ∅ VNone
                eq_refl) as [(rq & Hs & Hu) _].
    exists rq. split; [exact Hs|]. rewrite Hu. reflexivity.
  - destruct (transport_url (fixed_client 200 VNone) logged_in
                ("user", "secret") [SegStr "topics"; SegInt (-7)] ∅ VNone
                eq_refl) as [_ (rq & Hs & Hu)].
    exists rq. split; [exact Hs|]. rewrite Hu. reflexivity.
Defined.


(** ** Frame reasoning *)

Section Keeps.
Context {S X : Type} (f : S → X).

Lemma keeps_ret {A} (a : A) : keeps f (mret a : M S A).
Proof. intros s. reflexivity. Qed.

Lemma keeps_lift {A} (r : result A) : keeps f (lift r : M S A).
Proof. intros s. reflexivity. Qed.

Lemma keeps_bind {A B} (m : M S A) (k : A → M S B) :
  keeps f m → (∀ a, keeps f (k a)) → keeps f (m ≫= k).
Proof.
  intros Hm Hk s. rewrite bind_run. specialize (Hm s).
  destruct (m s) as [s' [a|e]]; simpl in *.
  - rewrite Hk. exact Hm.
  - exact Hm.
Qed.

Lemma keeps_modify (g : S → S) : (∀ s, f (g s) = f s) → keeps f (modify g).
Proof. intros Hg s. apply Hg. Qed.

Lemma keeps_assign {A} (set : A → S → S) (e : result A) :
  (∀ v s, f (set v s) = f s) → keeps f (assign set e).
Proof.
  intros Hset. apply keeps_bind; [apply keeps_lift|].
  intros v. apply keeps_modify, Hset.
Qed.

Lemma keeps_on_field {T A} (proj : S → option T) (set : option T → S → S)
    (m : M T A) :
  (∀ v s, f (set v s) = f s) → keeps f (on_field proj set m).
Proof.
  intros Hset s. unfold on_field. destruct (proj s) as [o|]; [|reflexivity].
  destruct (m o) as [o' r]. apply Hset.
Qed.

Lemma keeps_on_new {T A} (o : T) (m : M T A) : keeps f (on_new o m : M S T).
Proof. intros s. unfold on_new. by destruct (m o) as [o' [a|e]]. Qed.

Lemma keeps_for_in {A B} (l : list A) (acc : B) (body : B → A → M S B) :
  (∀ b x, keeps f (body b x)) → keeps f (for_in l acc body).
Proof.
  intros Hb. revert acc. induction l as [|x l IH]; intros acc.
  - apply keeps_ret.
  - apply keeps_bind; [apply Hb|]. intros acc'. apply IH.
Qed.

End Keeps.

(** ** Groups *)

Lemma friends_append_keeps_joined u : keeps Group.joined (Group.friends_append u).
Proof. intros g. unfold Group.friends_append. by destruct (Group.friends g). Qed.

Lemma friends_body_keeps_joined b x : keeps Group.joined (friends_body b x).
Proof.
  apply keeps_bind; [apply keeps_on_new|].
  intros u. apply friends_append_keeps_joined.
Qed.

Lemma Group_import_keeps_joined d : keeps Group.joined (Group.import_from_api d).
Proof.
  unfold Group.import_from_api.
  repeat first
    [ apply keeps_bind; [|intros ?]
    | apply keeps_assign; intros ? ?; reflexivity
    | apply keeps_modify; intros ?; reflexivity
    | apply keeps_lift
    | apply keeps_ret
    | apply keeps_on_field; intros ? ?; reflexivity
    | apply keeps_for_in; apply friends_body_keeps_joined
    | match goal with |- keeps _ (if ?b then _ else _) => destruct b end ].
Qed.

Lemma friends_loop_dicts ms g fs :
  Group.friends g = Some fs →
  for_in (VDict <$> ms) tt friends_body g =
    (Group.set_friends (Some (fs ++ (decoded_user <$> ms))) g, Ok tt).
Proof.
  revert g fs. induction ms as [|m ms IH]; intros g fs Hf.
  - simpl. rewrite app_nil_r. destruct g; simpl in *; by subst.
  - simpl. rewrite bind_run. unfold friends_body at 1.
    rewrite bind_run. unfold on_new. rewrite User_import_dict.
    unfold Group.friends_append. rewrite Hf.
    rewrite (IH _ (fs ++ [decoded_user m])) by reflexivity.
    rewrite <- app_assoc. reflexivity.
Qed.

Lemma Group_import_not_dict d g :
  ¬ is_dict d → Group.import_from_api d g = (g, Raise AttributeError).
Proof.
  intros Hd. unfold Group.import_from_api.
  rewrite bind_run, (dict_get_not_dict d _ Hd). reflexivity.
Qed.

(** The store and outcome of decoding a dictionary whose timestamps convert
    and whose creator is a dictionary: what is left is the loop over
    [friend_list]. *)
Lemma Group_import_dict m g t1 t2 c :
  utcfromtimestamp (lookup_or_none m "date_latest_message") = Ok t1 →
  utcfromtimestamp (lookup_or_none m "date_created") = Ok t2 →
  m !! "creator" = Some (VDict c) →
  Group.import_from_api (VDict m) g =
    let g0 :=
      Group.mk (lookup_or_none m "kind") (lookup_or_none m "members_count")
        (lookup_or_none m "name") (Some (decoded_user c))
        (lookup_or_none m "url") (lookup_or_none m "slug")
        (Some t1) (Some t2) (lookup_or_none m "topics_count") (Some [])
        (lookup_or_none m "unread") (lookup_or_none m "id")
        (Group.joined g) in
    match m !! "friend_list" with
    | None => (g0, Ok tt)
    | Some v =>
        match iter v with
        | Ok l => for_in l tt friends_body g0
        | Raise e => (g0, Raise e)
        end
    end.
Proof.
  intros H1 H2 H3. unfold Group.import_from_api, contains.
  rewrite !dict_get_dict.
  assert (Hc : lookup_or_none m "creator" = VDict c)
    by (unfold lookup_or_none; by rewrite H3).
  rewrite Hc. cbn [mbind result_bind]. rewrite H1, H2.
  destruct (m !! "friend_list") as [v|] eqn:Hf.
  - assert (Hv : lookup_or_none m "friend_list" = v)
      by (unfold lookup_or_none; by rewrite Hf).
    rewrite Hv. destruct (iter v); reflexivity.
  - reflexivity.
Qed.

Lemma Group_import_bad_latest m g e :
  utcfromtimestamp (lookup_or_none m "date_latest_message") = Raise e →
  (Group.import_from_api (VDict m) g).2 = Raise e.
Proof.
  intros H1. unfold Group.import_from_api. rewrite !dict_get_dict.
  cbn [mbind result_bind]. rewrite H1. reflexivity.
Qed.

Lemma Group_import_bad_created m g t1 e :
  utcfromtimestamp (lookup_or_none m "date_latest_message") = Ok t1 →
  utcfromtimestamp (lookup_or_none m "date_created") = Raise e →
  (Group.import_from_api (VDict m) g).2 = Raise e.
Proof.
  intros H1 H2. unfold Group.import_from_api. rewrite !dict_get_dict.
  cbn [mbind result_bind]. rewrite H1, H2. reflexivity.
Qed.

Lemma Group_import_bad_creator m g t1 t2 :
  utcfromtimestamp (lookup_or_none m "date_latest_message") = Ok t1 →
  utcfromtimestamp (lookup_or_none m "date_created") = Ok t2 →
  ¬ is_dict (lookup_or_none m "creator") →
  (Group.import_from_api (VDict m) g).2 = Raise AttributeError.
Proof.
  intros H1 H2 H3. unfold Group.import_from_api. rewrite !dict_get_dict.
  cbn [mbind result_bind]. rewrite H1, H2.
  destruct (lookup_or_none m "creator") eqn:Hc; try reflexivity.
  exfalso. apply H3. by eexists.
Qed.

Lemma is_dict_dec (v : value) : {m | v = VDict m} + {¬ is_dict v}.
Proof.
  destruct v; try (right; intros [m' Hm]; discriminate).
  left. by eexists.
Qed.

(** Decoding a dictionary returns only if both timestamps convert and the
    creator is a dictionary. *)
Lemma Group_import_ok_inv m g g' :
  Group.import_from_api (VDict m) g = (g', Ok tt) →
  ∃ t1 t2 c,
    utcfromtimestamp (lookup_or_none m "date_latest_message") = Ok t1 ∧
    utcfromtimestamp (lookup_or_none m "date_created") = Ok t2 ∧
    m !! "creator" = Some (VDict c).
Proof.
  intros H.
  destruct (utcfromtimestamp (lookup_or_none m "date_latest_message"))
    as [t1|e] eqn:H1.
  2: { rewrite (surjective_pairing (Group.import_from_api _ _)) in H.
       rewrite (Group_import_bad_latest _ _ _ H1) in H. congruence. }
  destruct (utcfromtimestamp (lookup_or_none m "date_created"))
    as [t2|e] eqn:H2.
  2: { rewrite (surjective_pairing (Group.import_from_api _ _)) in H.
       rewrite (Group_import_bad_created _ _ _ _ H1 H2) in H. congruence. }
  destruct (is_dict_dec (lookup_or_none m "creator")) as [[c Hc]|Hn].
  2: { rewrite (surjective_pairing (Group.import_from_api _ _)) in H.
       rewrite (Group_import_bad_creator _ _ _ _ H1 H2 Hn) in H. congruence. }
  exists t1, t2, c. repeat split.
  unfold lookup_or_none in Hc. destruct (m !! "creator"); simpl in Hc;
    congruence.
Qed.

(** ** Topics *)

Lemma Topic_import_not_dict d o :
  ¬ is_dict d → Topic.import_from_api d o = (o, Raise AttributeError).
Proof.
  intros Hd. unfold Topic.import_from_api.
  rewrite bind_run, (dict_get_not_dict d _ Hd). reflexivity.
Qed.

Lemma Topic_import_dict m o t1 t2 c :
  utcfromtimestamp (lookup_or_none m "date_created") = Ok t1 →
  utcfromtimestamp (lookup_or_none m "date_latest_message") = Ok t2 →
  m !! "creator" = Some (VDict c) →
  Topic.import_from_api (VDict m) o =
    (Topic.mk (lookup_or_none m "id") (lookup_or_none m "name")
       (lookup_or_none m "slug") (lookup_or_none m "url")
       (lookup_or_none m "message_count") (lookup_or_none m "unread")
       (Some t1) (Some t2) (Some (decoded_user c)), Ok tt).
Proof.
  intros H1 H2 H3. unfold Topic.import_from_api. rewrite !dict_get_dict.
  assert (Hc : lookup_or_none m "creator" = VDict c)
    by (unfold lookup_or_none; by rewrite H3).
  rewrite Hc. cbn [mbind result_bind]. rewrite H1, H2. reflexivity.
Qed.

Lemma Topic_import_bad_created m o e :
  utcfromtimestamp (lookup_or_none m "date_created") = Raise e →
  (Topic.import_from_api (VDict m) o).2 = Raise e.
Proof.
  intros H1. unfold Topic.import_from_api. rewrite !dict_get_dict.
  cbn [mbind result_bind]. rewrite H1. reflexivity.
Qed.

Lemma Topic_import_bad_latest m o t1 e :
  utcfromtimestamp (lookup_or_none m "date_created") = Ok t1 →
  utcfromtimestamp (lookup_or_none m "date_latest_message") = Raise e →
  (Topic.import_from_api (VDict m) o).2 = Raise e.
Proof.
  intros H1 H2. unfold Topic.import_from_api. rewrite !dict_get_dict.
  cbn [mbind result_bind]. rewrite H1, H2. reflexivity.
Qed.

Lemma Topic_import_bad_creator m o t1 t2 :
  utcfromtimestamp (lookup_or_none m "date_created") = Ok t1 →
  utcfromtimestamp (lookup_or_none m "date_latest_message") = Ok t2 →
  ¬ is_dict (lookup_or_none m "creator") →
  (Topic.import_from_api (VDict m) o).2 = Raise AttributeError.
Proof.
  intros H1 H2 H3. unfold Topic.import_from_api. rewrite !dict_get_dict.
  cbn [mbind result_bind]. rewrite H1, H2.
  destruct (lookup_or_none m "creator") eqn:Hc; try reflexivity.
  exfalso. apply H3. by eexists.
Qed.

Lemma Topic_import_ok_inv m o o' :
  Topic.import_from_api (VDict m) o = (o', Ok tt) →
  ∃ t1 t2 c,
    utcfromtimestamp (lookup_or_none m "date_created") = Ok t1 ∧
    utcfromtimestamp (lookup_or_none m "date_latest_message") = Ok t2 ∧
    m !! "creator" = Some (VDict c).
Proof.
  intros H.
  destruct (utcfromtimestamp (lookup_or_none m "date_created"))
    as [t1|e] eqn:H1.
  2: { rewrite (surjective_pairing (Topic.import_from_api _ _)) in H.
       rewrite (Topic_import_bad_created _ _ _ H1) in H. congruence. }
  destruct (utcfromtimestamp (lookup_or_none m "date_latest_message"))
    as [t2|e] eqn:H2.
  2: { rewrite (surjective_pairing (Topic.import_from_api _ _)) in H.
       rewrite (Topic_import_bad_latest _ _ _ _ H1 H2) in H. congruence. }
  destruct (is_dict_dec (lookup_or_none m "creator")) as [[c Hc]|Hn].
  2: { rewrite (surjective_pairing (Topic.import_from_api _ _)) in H.
       rewrite (Topic_import_bad_creator _ _ _ _ H1 H2 Hn) in H. congruence. }
  exists t1, t2, c. repeat split.
  unfold lookup_or_none in Hc. destruct (m !! "creator"); simpl in Hc;
    congruence.
Qed.

(** ** Messages *)

Lemma Message_import_not_dict d o :
  ¬ is_dict d → Message.import_from_api d o = (o, Raise AttributeError).
Proof.
  intros Hd. unfold Message.import_from_api.
  rewrite bind_run, (dict_get_not_dict d _ Hd). reflexivity.
Qed.

Lemma Message_import_dict m o t c :
  utcfromtimestamp (lookup_or_none m "date_created") = Ok t →
  m !! "user" = Some (VDict c) →
  Message.import_from_api (VDict m) o =
    (Message.mk (lookup_or_none m "id") (lookup_or_none m "message")
       (Some t) (Some (decoded_user c)), Ok tt).
Proof.
  intros H1 H3. unfold Message.import_from_api. rewrite !dict_get_dict.
  assert (Hc : lookup_or_none m "user" = VDict c)
    by (unfold lookup_or_none; by rewrite H3).
  rewrite Hc. cbn [mbind result_bind]. rewrite H1. reflexivity.
Qed.

Lemma Message_import_bad_created m o e :
  utcfromtimestamp (lookup_or_none m "date_created") = Raise e →
  (Message.import_from_api (VDict m) o).2 = Raise e.
Proof.
  intros H1. unfold Message.import_from_api. rewrite !dict_get_dict.
  cbn [mbind result_bind]. rewrite H1. reflexivity.
Qed.

Lemma Message_import_bad_user m o t :
  utcfromtimestamp (lookup_or_none m "date_created") = Ok t →
  ¬ is_dict (lookup_or_none m "user") →
  (Message.import_from_api (VDict m) o).2 = Raise AttributeError.
Proof.
  intros H1 H3. unfold Message.import_from_api. rewrite !dict_get_dict.
  cbn [mbind result_bind]. rewrite H1.
  destruct (lookup_or_none m "user") eqn:Hc; try reflexivity.
  exfalso. apply H3. by eexists.
Qed.

Lemma Message_import_ok_inv m o o' :
  Message.import_from_api (VDict m) o = (o', Ok tt) →
  ∃ t c,
    utcfromtimestamp (lookup_or_none m "date_created") = Ok t ∧
    m !! "user" = Some (VDict c).
Proof.
  intros H.
  destruct (utcfromtimestamp (lookup_or_none m "date_created"))
    as [t|e] eqn:H1.
  2: { rewrite (surjective_pairing (Message.import_from_api _ _)) in H.
       rewrite (Message_import_bad_created _ _ _ H1) in H. congruence. }
  destruct (is_dict_dec (lookup_or_none m "user")) as [[c Hc]|Hn].
  2: { rewrite (surjective_pairing (Message.import_from_api _ _)) in H.
       rewrite (Message_import_bad_user _ _ _ H1 Hn) in H. congruence. }
  exists t, c. repeat split.
  unfold lookup_or_none in Hc. destruct (m !! "user"); simpl in Hc;
    congruence.
Qed.

(** ** Categories *)

Lemma Category_import_dict m o :
  Category.import_from_api (VDict m) o =
    (Category.mk (lookup_or_none m "groups_count") (lookup_or_none m "slug")
       (lookup_or_none m "name") (Category.groups o), Ok tt).
Proof. reflexivity. Qed.

(** ** Timestamps *)

Lemma utcfromtimestamp_missing m k :
  m !! k = None → utcfromtimestamp (lookup_or_none m k) = Raise TypeError.
Proof. intros H. unfold lookup_or_none. rewrite H. reflexivity. Qed.

Lemma utcfromtimestamp_seconds m k n :
  m !! k = Some (VInt n) → MIN_TIMESTAMP ≤ n ≤ MAX_TIMESTAMP →
  utcfromtimestamp (lookup_or_none m k) = Ok (gmtime n).
Proof.
  intros H [Hlo Hhi]. unfold lookup_or_none. rewrite H. simpl.
  unfold fromtimestamp_int.
  apply Z.leb_le in Hlo. apply Z.leb_le in Hhi. by rewrite Hlo, Hhi.
Qed.

Lemma missing_not_dict m k : m !! k = None → ¬ is_dict (lookup_or_none m k).
Proof.
  intros H [m' Hm]. unfold lookup_or_none in Hm. rewrite H in Hm. discriminate.
Qed.

Lemma present_not_dict m k v :
  m !! k = Some v → ¬ is_dict v → ¬ is_dict (lookup_or_none m k).
Proof. intros H Hv. unfold lookup_or_none. by rewrite H. Qed.

(** ** Outcomes depend on the strict keys only *)

Lemma friends_loop_outcome l g1 g2 fs1 fs2 :
  Group.friends g1 = Some fs1 → Group.friends g2 = Some fs2 →
  (for_in l tt friends_body g1).2 = (for_in l tt friends_body g2).2.
Proof.
  revert g1 g2 fs1 fs2. induction l as [|x l IH]; intros g1 g2 fs1 fs2 H1 H2.
  - reflexivity.
  - simpl. rewrite !bind_run. unfold friends_body at 1 3.
    rewrite !bind_run. unfold on_new.
    destruct (User.import_from_api x User.__init__) as [u [[]|e]];
      [|reflexivity].
    unfold Group.friends_append. rewrite H1, H2.
    eapply IH; reflexivity.
Qed.

Lemma lookup_or_none_ext m1 m2 k :
  m1 !! k = m2 !! k → lookup_or_none m1 k = lookup_or_none m2 k.
Proof. unfold lookup_or_none. by intros ->. Qed.

Lemma Group_import_outcome_ext m1 m2 g1 g2 :
  m1 !! "date_latest_message" = m2 !! "date_latest_message" →
  m1 !! "date_created" = m2 !! "date_created" →
  m1 !! "creator" = m2 !! "creator" →
  m1 !! "friend_list" = m2 !! "friend_list" →
  (Group.import_from_api (VDict m1) g1).2
    = (Group.import_from_api (VDict m2) g2).2.
Proof.
  intros E1 E2 E3 E4.
  pose proof (lookup_or_none_ext _ _ _ E1) as L1.
  pose proof (lookup_or_none_ext _ _ _ E2) as L2.
  pose proof (lookup_or_none_ext _ _ _ E3) as L3.
  destruct (utcfromtimestamp (lookup_or_none m2 "date_latest_message"))
    as [t1|e] eqn:H1.
  2: { rewrite !(Group_import_bad_latest _ _ e); congruence. }
  destruct (utcfromtimestamp (lookup_or_none m2 "date_created"))
    as [t2|e] eqn:H2.
  2: { rewrite !(Group_import_bad_created _ _ t1 e); congruence. }
  destruct (is_dict_dec (lookup_or_none m2 "creator")) as [[c Hc]|Hn].
  2: { rewrite !(Group_import_bad_creator _ _ t1 t2); congruence. }
  assert (Hc2 : m2 !! "creator" = Some (VDict c)).
  { unfold lookup_or_none in Hc. destruct (m2 !! "creator"); simpl in Hc;
      congruence. }
  rewrite (Group_import_dict m1 g1 t1 t2 c) by congruence.
  rewrite (Group_import_dict m2 g2 t1 t2 c) by congruence.
  cbv zeta. rewrite E4. destruct (m2 !! "friend_list") as [v|]; [|reflexivity].
  destruct (iter v) as [l|e]; [|reflexivity].
  eapply friends_loop_outcome; reflexivity.
Qed.

Lemma Topic_import_outcome_ext m1 m2 o1 o2 :
  m1 !! "date_created" = m2 !! "date_created" →
  m1 !! "date_latest_message" = m2 !! "date_latest_message" →
  m1 !! "creator" = m2 !! "creator" →
  (Topic.import_from_api (VDict m1) o1).2
    = (Topic.import_from_api (VDict m2) o2).2.
Proof.
  intros E1 E2 E3.
  pose proof (lookup_or_none_ext _ _ _ E1) as L1.
  pose proof (lookup_or_none_ext _ _ _ E2) as L2.
  pose proof (lookup_or_none_ext _ _ _ E3) as L3.
  destruct (utcfromtimestamp (lookup_or_none m2 "date_created"))
    as [t1|e] eqn:H1.
  2: { rewrite !(Topic_import_bad_created _ _ e); congruence. }
  destruct (utcfromtimestamp (lookup_or_none m2 "date_latest_message"))
    as [t2|e] eqn:H2.
  2: { rewrite !(Topic_import_bad_latest _ _ t1 e); congruence. }
  destruct (is_dict_dec (lookup_or_none m2 "creator")) as [[c Hc]|Hn].
  2: { rewrite !(Topic_import_bad_creator _ _ t1 t2); congruence. }
  assert (Hc2 : m2 !! "creator" = Some (VDict c)).
  { unfold lookup_or_none in Hc. destruct (m2 !! "creator"); simpl in Hc;
      congruence. }
  rewrite (Topic_import_dict m1 o1 t1 t2 c) by congruence.
  rewrite (Topic_import_dict m2 o2 t1 t2 c) by congruence.
  reflexivity.
Qed.

Lemma Message_import_outcome_ext m1 m2 o1 o2 :
  m1 !! "date_created" = m2 !! "date_created" →
  m1 !! "user" = m2 !! "user" →
  (Message.import_from_api (VDict m1) o1).2
    = (Message.import_from_api (VDict m2) o2).2.
Proof.
  intros E1 E3.
  pose proof (lookup_or_none_ext _ _ _ E1) as L1.
  pose proof (lookup_or_none_ext _ _ _ E3) as L3.
  destruct (utcfromtimestamp (lookup_or_none m2 "date_created"))
    as [t1|e] eqn:H1.
  2: { rewrite !(Message_import_bad_created _ _ e); congruence. }
  destruct (is_dict_dec (lookup_or_none m2 "user")) as [[c Hc]|Hn].
  2: { rewrite !(Message_import_bad_user _ _ t1); congruence. }
  assert (Hc2 : m2 !! "user" = Some (VDict c)).
  { unfold lookup_or_none in Hc. destruct (m2 !! "user"); simpl in Hc;
      congruence. }
  rewrite (Message_import_dict m1 o1 t1 c) by congruence.
  rewrite (Message_import_dict m2 o2 t1 c) by congruence.
  reflexivity.
Qed.

(** ** Claims about [Group.import_from_api] *)

Lemma Group_import_ignores_joined_key m v g :
  Group.import_from_api (VDict (<["joined" := v]> m)) g
    = Group.import_from_api (VDict m) g.
Proof.
  unfold Group.import_from_api, contains, dict_get.
  rewrite !lookup_insert_ne by done. reflexivity.
Qed.

(** C10: [Group.import_from_api] never reads a [joined] key.  Whatever the
    input (a mapping with or without a [joined] key, or no mapping at all)
    and whether the call returns or raises, the [joined] field is the one
    the object had before the call, which is [False] after construction;
    [joined] is the only field besides the twelve the decoder assigns.  A
    [joined] key in the mapping changes nothing in the outcome. *)
Theorem import_leaves_joined :
  (∀ d g, Group.joined (Group.import_from_api d g).1 = Group.joined g) ∧
  (∀ d, Group.joined (Group.import_from_api d Group.__init__).1 = false) ∧
  (∀ m v g, Group.import_from_api (VDict (<["joined" := v]> m)) g
            = Group.import_from_api (VDict m) g).
Proof.
  split; [|split].
  - intros d g. apply Group_import_keeps_joined.
  - intros d. apply (Group_import_keeps_joined d Group.__init__).
  - apply Group_import_ignores_joined_key.
Qed.

(** C4: for a group mapping whose timestamps convert and whose creator is a
    mapping, decoding returns; without a [friend_list] key the friends are
    the empty sequence, and with a [friend_list] holding an array of N user
    mappings the friends are the N decoded users in the order of the
    array. *)
Theorem friends_decoded m g t1 t2 c :
  utcfromtimestamp (lookup_or_none m "date_latest_message") = Ok t1 →
  utcfromtimestamp (lookup_or_none m "date_created") = Ok t2 →
  m !! "creator" = Some (VDict c) →
  (m !! "friend_list" = None →
     ∃ g', Group.import_from_api (VDict m) g = (g', Ok tt) ∧
           Group.friends g' = Some []) ∧
  (∀ ms, m !! "friend_list" = Some (VList (VDict <$> ms)) →
     ∃ g' fs, Group.import_from_api (VDict m) g = (g', Ok tt) ∧
              Group.friends g' = Some fs ∧
              length fs = length ms ∧
              ∀ i mi, ms !! i = Some mi →
                fs !! i = Some (User.mk (lookup_or_none mi "username")
                                  (lookup_or_none mi "url")
                                  (lookup_or_none mi "id")
                                  (lookup_or_none mi "img"))).
Proof.
  intros H1 H2 H3. rewrite (Group_import_dict m g t1 t2 c H1 H2 H3). cbv zeta.
  split.
  - intros ->. eexists. split; reflexivity.
  - intros ms ->. cbn [iter].
    erewrite friends_loop_dicts by reflexivity.
    do 2 eexists. split; [reflexivity|]. split; [reflexivity|].
    split.
    + cbn [app]. by rewrite length_fmap.
    + intros i mi Hi. cbn [app]. rewrite list_lookup_fmap, Hi. reflexivity.
Qed.

Lemma friends_decoded_witness :
  ∃ g', Group.import_from_api (VDict sample_group) Group.__init__
          = (g', Ok tt) ∧
        Group.friends g'
          = Some [User.mk (VStr "a") VNone (VInt 1) VNone;
                  User.mk VNone VNone VNone VNone].
Proof.
  destruct (friends_decoded sample_group Group.__init__
              (gmtime 86400) (gmtime 0) sample_user
              eq_refl eq_refl eq_refl) as [_ H].
  destruct (H [sample_user; ∅] eq_refl) as (g' & fs & Hg & Hf & Hl & Hi).
  exists g'. split; [exact Hg|]. rewrite Hf. f_equal.
  destruct fs as [|u1 [|u2 [|u3 fs]]]; try discriminate Hl.
  pose proof (Hi 0%nat sample_user eq_refl) as E1.
  pose proof (Hi 1%nat ∅ eq_refl) as E2.
  simpl in E1, E2. injection E1 as ->. injection E2 as ->. reflexivity.
Defined.

(** C9: decoding a group mapping and re-serializing the group preserves the
    values of id, slug, name, members_count and topics_count exactly: the
    re-serialized mapping holds, under each of the five keys, the value the
    input mapping holds. *)
Theorem group_roundtrip m g g' :
  Group.import_from_api (VDict m) g = (g', Ok tt) →
  ∃ m', reserialize_group g' = VDict m' ∧
        ∀ k, k ∈ roundtrip_keys →
          (∀ v, m !! k = Some v → m' !! k = Some v) ∧
          dict_get (VDict m') k VNone = dict_get (VDict m) k VNone.
Proof.
  intros H. destruct (Group_import_ok_inv _ _ _ H) as (t1 & t2 & c & H1 & H2 & H3).
  rewrite (Group_import_dict m g t1 t2 c H1 H2 H3) in H. cbv zeta in H.
  assert (Hg : Group.id g' = lookup_or_none m "id" ∧
               Group.slug g' = lookup_or_none m "slug" ∧
               Group.name g' = lookup_or_none m "name" ∧
               Group.members_count g' = lookup_or_none m "members_count" ∧
               Group.topics_count g' = lookup_or_none m "topics_count").
  { destruct (m !! "friend_list") as [v|].
    - destruct (iter v) as [l|e]; [|discriminate].
      match type of H with for_in _ _ _ ?g0 = _ => set (G0 := g0) in * end.
      assert (Hk : ∀ (f : Group.t → value),
                 keeps f (for_in l tt friends_body) → f g' = f G0).
      { intros f Hf. specialize (Hf G0). by rewrite H in Hf. }
      assert (Hb : ∀ (f : Group.t → value),
                 (∀ v o, f (Group.set_friends v o) = f o) →
                 keeps f (for_in l tt friends_body)).
      { intros f Hf. apply keeps_for_in. intros b x.
        apply keeps_bind; [apply keeps_on_new|]. intros u s.
        unfold Group.friends_append. destruct (Group.friends s); [apply Hf|done]. }
      repeat split; apply Hk, Hb; reflexivity.
    - injection H as <-. repeat split. }
  destruct Hg as (Gi & Gs & Gn & Gm & Gt).
  eexists. split; [reflexivity|]. intros k Hk.
  unfold roundtrip_keys in Hk. rewrite Gi, Gs, Gn, Gm, Gt.
  assert (Hl : ∀ k v, m !! k = Some v → lookup_or_none m k = v)
    by (intros k0 v0 E; unfold lookup_or_none; by rewrite E).
  repeat (apply elem_of_cons in Hk as [->|Hk]); [..|by apply elem_of_nil in Hk].
  all: split; [intros v Hv; rewrite (Hl _ _ Hv); reflexivity | reflexivity].
Qed.

Lemma group_roundtrip_witness :
  ∃ g' m', Group.import_from_api (VDict sample_group) Group.__init__
             = (g', Ok tt) ∧
           reserialize_group g' = VDict m' ∧
           m' !! "id" = Some (VInt 7) ∧ m' !! "slug" = Some (VStr "rocq") ∧
           m' !! "name" = Some (VStr "Rocq") ∧
           m' !! "members_count" = Some (VInt 2) ∧
           m' !! "topics_count" = Some (VInt 5).
Proof.
  eexists.
  destruct (group_roundtrip sample_group Group.__init__ _ eq_refl)
    as (m' & Hm & Hk).
  exists m'. split; [reflexivity|]. split; [exact Hm|].
  repeat split.
  - apply (proj1 (Hk "id" ltac:(in_list))).
    reflexivity.
  - apply (proj1 (Hk "slug" ltac:(in_list))).
    reflexivity.
  - apply (proj1 (Hk "name" ltac:(in_list))).
    reflexivity.
  - apply (proj1 (Hk "members_count" ltac:(in_list))).
    reflexivity.
  - apply (proj1 (Hk "topics_count" ltac:(in_list))).
    reflexivity.
Defined.

(** ** Scalar fields *)

Lemma delete_scalar_ne (m : gmap string value) k k' :
  k ≠ k' → delete k m !! k' = m !! k'.
Proof. intros. by apply lookup_delete_ne. Qed.

Lemma Group_import_without_scalar m k g :
  k ∈ Group_scalars →
  (Group.import_from_api (VDict (delete k m)) g).2
    = (Group.import_from_api (VDict m) g).2.
Proof.
  unfold Group_scalars. intros Hk.
  repeat (apply elem_of_cons in Hk as [->|Hk]); [..|by apply elem_of_nil in Hk];
    apply Group_import_outcome_ext; by apply delete_scalar_ne.
Qed.

Lemma Topic_import_without_scalar m k o :
  k ∈ Topic_scalars →
  (Topic.import_from_api (VDict (delete k m)) o).2
    = (Topic.import_from_api (VDict m) o).2.
Proof.
  unfold Topic_scalars. intros Hk.
  repeat (apply elem_of_cons in Hk as [->|Hk]); [..|by apply elem_of_nil in Hk];
    apply Topic_import_outcome_ext; by apply delete_scalar_ne.
Qed.

Lemma Message_import_without_scalar m k o :
  k ∈ Message_scalars →
  (Message.import_from_api (VDict (delete k m)) o).2
    = (Message.import_from_api (VDict m) o).2.
Proof.
  unfold Message_scalars. intros Hk.
  repeat (apply elem_of_cons in Hk as [->|Hk]); [..|by apply elem_of_nil in Hk];
    apply Message_import_outcome_ext; by apply delete_scalar_ne.
Qed.

Lemma Group_import_scalars m g g' :
  Group.import_from_api (VDict m) g = (g', Ok tt) →
  Group.kind g' = lookup_or_none m "kind" ∧
  Group.members_count g' = lookup_or_none m "members_count" ∧
  Group.name g' = lookup_or_none m "name" ∧
  Group.url g' = lookup_or_none m "url" ∧
  Group.slug g' = lookup_or_none m "slug" ∧
  Group.topics_count g' = lookup_or_none m "topics_count" ∧
  Group.unread g' = lookup_or_none m "unread" ∧
  Group.id g' = lookup_or_none m "id".
Proof.
  intros H.
  destruct (Group_import_ok_inv _ _ _ H) as (t1 & t2 & c & H1 & H2 & H3).
  rewrite (Group_import_dict m g t1 t2 c H1 H2 H3) in H. cbv zeta in H.
  destruct (m !! "friend_list") as [v|].
  - destruct (iter v) as [l|e]; [|discriminate].
    match type of H with for_in _ _ _ ?g0 = _ => set (G0 := g0) in * end.
    assert (Hk : ∀ (f : Group.t → value),
               (∀ v o, f (Group.set_friends v o) = f o) → f g' = f G0).
    { intros f Hf.
      assert (Hb : keeps f (for_in l tt friends_body)).
      { apply keeps_for_in. intros b x.
        apply keeps_bind; [apply keeps_on_new|]. intros u s.
        unfold Group.friends_append.
        destruct (Group.friends s); [apply Hf|done]. }
      specialize (Hb G0). by rewrite H in Hb. }
    repeat split; apply Hk; reflexivity.
  - injection H as <-. repeat split.
Qed.

Lemma Topic_import_scalars m o o' :
  Topic.import_from_api (VDict m) o = (o', Ok tt) →
  Topic.id o' = lookup_or_none m "id" ∧
  Topic.name o' = lookup_or_none m "name" ∧
  Topic.slug o' = lookup_or_none m "slug" ∧
  Topic.url o' = lookup_or_none m "url" ∧
  Topic.message_count o' = lookup_or_none m "message_count" ∧
  Topic.unread o' = lookup_or_none m "unread".
Proof.
  intros H.
  destruct (Topic_import_ok_inv _ _ _ H) as (t1 & t2 & c & H1 & H2 & H3).
  rewrite (Topic_import_dict m o t1 t2 c H1 H2 H3) in H.
  injection H as <-. repeat split.
Qed.

(** The loop over [friend_list] writes [friends] only. *)
Lemma friends_loop_keeps {X} (f : Group.t → X) l :
  (∀ v o, f (Group.set_friends v o) = f o) →
  keeps f (for_in l tt friends_body).
Proof.
  intros Hf. apply keeps_for_in. intros b x.
  apply keeps_bind; [apply keeps_on_new|]. intros u s.
  unfold Group.friends_append. destruct (Group.friends s); [apply Hf|done].
Qed.

(** The scalar fields in the store a decoding leaves, whether it returned
    or raised.  [Group] reads five scalars before its timestamps and three
    after them; [Topic] and [Message] read all of theirs first. *)
Lemma Group_import_store m g :
  let g' := (Group.import_from_api (VDict m) g).1 in
  (Group.kind g' = lookup_or_none m "kind" ∧
   Group.members_count g' = lookup_or_none m "members_count" ∧
   Group.name g' = lookup_or_none m "name" ∧
   Group.url g' = lookup_or_none m "url" ∧
   Group.slug g' = lookup_or_none m "slug") ∧
  (is_ok (utcfromtimestamp (lookup_or_none m "date_latest_message")) = true →
   is_ok (utcfromtimestamp (lookup_or_none m "date_created")) = true →
   Group.topics_count g' = lookup_or_none m "topics_count" ∧
   Group.unread g' = lookup_or_none m "unread" ∧
   Group.id g' = lookup_or_none m "id").
Proof.
  cbv zeta.
  destruct (utcfromtimestamp (lookup_or_none m "date_latest_message"))
    as [t1|e] eqn:H1.
  2: { unfold Group.import_from_api. rewrite !dict_get_dict.
       cbn [mbind result_bind]. rewrite H1.
       split; [repeat split|discriminate]. }
  destruct (utcfromtimestamp (lookup_or_none m "date_created"))
    as [t2|e] eqn:H2.
  2: { unfold Group.import_from_api. rewrite !dict_get_dict.
       cbn [mbind result_bind]. rewrite H1, H2.
       split; [repeat split|intros _; discriminate]. }
  destruct (is_dict_dec (lookup_or_none m "creator")) as [[c Hc]|Hn].
  2: { unfold Group.import_from_api. rewrite !dict_get_dict.
       cbn [mbind result_bind]. rewrite H1, H2.
       destruct (lookup_or_none m "creator") eqn:Hc;
         [..|exfalso; apply Hn; by eexists];
         (split; [repeat split|intros _ _; repeat split]). }
  assert (H3 : m !! "creator" = Some (VDict c)).
  { unfold lookup_or_none in Hc. destruct (m !! "creator"); simpl in Hc;
      congruence. }
  rewrite (Group_import_dict m g t1 t2 c H1 H2 H3). cbv zeta.
  destruct (m !! "friend_list") as [v|];
    [destruct (iter v) as [l|e]|];
    [|split; [repeat split|intros _ _; repeat split]..].
  split; [|intros _ _]; repeat apply conj;
    match goal with
    | |- ?f (for_in ?l _ _ ?s).1 = _ =>
        exact (friends_loop_keeps f l (λ _ _, eq_refl) s)
    end.
Qed.

Lemma Topic_import_store m o :
  let o' := (Topic.import_from_api (VDict m) o).1 in
  Topic.id o' = lookup_or_none m "id" ∧
  Topic.name o' = lookup_or_none m "name" ∧
  Topic.slug o' = lookup_or_none m "slug" ∧
  Topic.url o' = lookup_or_none m "url" ∧
  Topic.message_count o' = lookup_or_none m "message_count" ∧
  Topic.unread o' = lookup_or_none m "unread".
Proof.
  cbv zeta. unfold Topic.import_from_api. rewrite !dict_get_dict.
  cbn [mbind result_bind].
  destruct (utcfromtimestamp (lookup_or_none m "date_created"));
    [|repeat split].
  destruct (utcfromtimestamp (lookup_or_none m "date_latest_message"));
    [|repeat split].
  destruct (lookup_or_none m "creator"); repeat split.
Qed.

Lemma Message_import_store m o :
  let o' := (Message.import_from_api (VDict m) o).1 in
  Message.id o' = lookup_or_none m "id" ∧
  Message.message o' = lookup_or_none m "message".
Proof.
  cbv zeta. unfold Message.import_from_api. rewrite !dict_get_dict.
  cbn [mbind result_bind].
  destruct (utcfromtimestamp (lookup_or_none m "date_created"));
    [|repeat split].
  destruct (lookup_or_none m "user"); repeat split.
Qed.

(** C2: every decoder reads each of its scalar fields by key: the field is
    the absent marker when the key is missing and exactly the mapped value
    when it is present.  This is stated on the store the decoding leaves,
    whether it returned or raised: [User] and [Category] decoding always
    returns on a mapping; [Topic] and [Message] set all their scalars
    before anything can fail; [Group] sets five of them first and
    [topics_count], [unread] and [id] once its two timestamps have
    converted (so all eight whenever it returns).  A missing scalar key
    never makes decoding fail: removing one from the mapping leaves the
    outcome (return or exception) as it was, and decoding returns whenever
    the timestamps convert and the nested keys hold mappings, whichever
    scalar keys are there. *)
Theorem scalar_fields_decoded (m : gmap string value) :
  (∀ u, ∃ u', User.import_from_api (VDict m) u = (u', Ok tt) ∧
     scalar_of m "username" (User.username u') ∧
     scalar_of m "url" (User.url u') ∧
     scalar_of m "id" (User.id u') ∧
     scalar_of m "img" (User.img u')) ∧
  (∀ o, ∃ o', Category.import_from_api (VDict m) o = (o', Ok tt) ∧
     scalar_of m "groups_count" (Category.groups_count o') ∧
     scalar_of m "slug" (Category.slug o') ∧
     scalar_of m "name" (Category.name o')) ∧
  (∀ g, let g' := (Group.import_from_api (VDict m) g).1 in
     scalar_of m "kind" (Group.kind g') ∧
     scalar_of m "members_count" (Group.members_count g') ∧
     scalar_of m "name" (Group.name g') ∧
     scalar_of m "url" (Group.url g') ∧
     scalar_of m "slug" (Group.slug g') ∧
     (is_ok (utcfromtimestamp (lookup_or_none m "date_latest_message"))
        = true →
      is_ok (utcfromtimestamp (lookup_or_none m "date_created")) = true →
      scalar_of m "topics_count" (Group.topics_count g') ∧
      scalar_of m "unread" (Group.unread g') ∧
      scalar_of m "id" (Group.id g'))) ∧
  (∀ g g', Group.import_from_api (VDict m) g = (g', Ok tt) →
     scalar_of m "kind" (Group.kind g') ∧
     scalar_of m "members_count" (Group.members_count g') ∧
     scalar_of m "name" (Group.name g') ∧
     scalar_of m "url" (Group.url g') ∧
     scalar_of m "slug" (Group.slug g') ∧
     scalar_of m "topics_count" (Group.topics_count g') ∧
     scalar_of m "unread" (Group.unread g') ∧
     scalar_of m "id" (Group.id g')) ∧
  (∀ o, let o' := (Topic.import_from_api (VDict m) o).1 in
     scalar_of m "id" (Topic.id o') ∧
     scalar_of m "name" (Topic.name o') ∧
     scalar_of m "slug" (Topic.slug o') ∧
     scalar_of m "url" (Topic.url o') ∧
     scalar_of m "message_count" (Topic.message_count o') ∧
     scalar_of m "unread" (Topic.unread o')) ∧
  (∀ o, let o' := (Message.import_from_api (VDict m) o).1 in
     scalar_of m "id" (Message.id o') ∧
     scalar_of m "message" (Message.message o')) ∧
  (∀ k g, k ∈ Group_scalars →
     (Group.import_from_api (VDict (delete k m)) g).2
       = (Group.import_from_api (VDict m) g).2) ∧
  (∀ k o, k ∈ Topic_scalars →
     (Topic.import_from_api (VDict (delete k m)) o).2
       = (Topic.import_from_api (VDict m) o).2) ∧
  (∀ k o, k ∈ Message_scalars →
     (Message.import_from_api (VDict (delete k m)) o).2
       = (Message.import_from_api (VDict m) o).2) ∧
  (∀ g t1 t2 c,
     utcfromtimestamp (lookup_or_none m "date_latest_message") = Ok t1 →
     utcfromtimestamp (lookup_or_none m "date_created") = Ok t2 →
     m !! "creator" = Some (VDict c) →
     (m !! "friend_list" = None ∨
      ∃ ms, m !! "friend_list" = Some (VList (VDict <$> ms))) →
     (Group.import_from_api (VDict m) g).2 = Ok tt) ∧
  (∀ o t1 t2 c,
     utcfromtimestamp (lookup_or_none m "date_created") = Ok t1 →
     utcfromtimestamp (lookup_or_none m "date_latest_message") = Ok t2 →
     m !! "creator" = Some (VDict c) →
     (Topic.import_from_api (VDict m) o).2 = Ok tt) ∧
  (∀ o t c,
     utcfromtimestamp (lookup_or_none m "date_created") = Ok t →
     m !! "user" = Some (VDict c) →
     (Message.import_from_api (VDict m) o).2 = Ok tt).
Proof.
  repeat apply conj.
  - intros u. rewrite User_import_dict. eexists. split; [reflexivity|].
    repeat split; apply scalar_of_lookup.
  - intros o. rewrite Category_import_dict. eexists. split; [reflexivity|].
    repeat split; apply scalar_of_lookup.
  - intros g. cbv zeta.
    destruct (Group_import_store m g) as [(-> & -> & -> & -> & ->) Hlate].
    repeat apply conj; try apply scalar_of_lookup.
    intros Ha Hb. destruct (Hlate Ha Hb) as (-> & -> & ->).
    repeat apply conj; apply scalar_of_lookup.
  - intros g g' H. apply Group_import_scalars in H.
    destruct H as (-> & -> & -> & -> & -> & -> & -> & ->).
    repeat apply conj; apply scalar_of_lookup.
  - intros o. cbv zeta.
    destruct (Topic_import_store m o) as (-> & -> & -> & -> & -> & ->).
    repeat apply conj; apply scalar_of_lookup.
  - intros o. cbv zeta.
    destruct (Message_import_store m o) as (-> & ->).
    repeat apply conj; apply scalar_of_lookup.
  - intros k g Hk. by apply Group_import_without_scalar.
  - intros k o Hk. by apply Topic_import_without_scalar.
  - intros k o Hk. by apply Message_import_without_scalar.
  - intros g t1 t2 c H1 H2 H3 Hf.
    rewrite (Group_import_dict m g t1 t2 c H1 H2 H3). cbv zeta.
    destruct Hf as [->|[ms ->]]; [reflexivity|].
    cbn [iter]. by erewrite friends_loop_dicts.
  - intros o t1 t2 c H1 H2 H3.
    by rewrite (Topic_import_dict m o t1 t2 c H1 H2 H3).
  - intros o t c H1 H3. by rewrite (Message_import_dict m o t c H1 H3).
Qed.

Lemma scalar_fields_decoded_witness :
  let bare : gmap string value :=
    {[ "id" := VInt 1; "message" := VStr "hi" ]} in
  (∃ g', Group.import_from_api (VDict sample_group) Group.__init__
           = (g', Ok tt) ∧
         Group.id g' = VInt 7 ∧ Group.kind g' = VNone) ∧
  (Group.import_from_api (VDict (delete "id" sample_group))
     Group.__init__).2 = Ok tt ∧
  (Topic.import_from_api (VDict sample_topic) Topic.__init__).2 = Ok tt ∧
  Topic.name (Topic.import_from_api (VDict sample_topic) Topic.__init__).1
    = VStr "news" ∧
  Topic.slug (Topic.import_from_api (VDict sample_topic) Topic.__init__).1
    = VNone ∧
  is_ok (Message.import_from_api (VDict bare) Message.__init__).2 = false ∧
  Message.id (Message.import_from_api (VDict bare) Message.__init__).1
    = VInt 1 ∧
  Message.message (Message.import_from_api (VDict bare) Message.__init__).1
    = VStr "hi" ∧
  (Message.import_from_api (VDict (delete "message" sample_message))
     Message.__init__).2 = Ok tt.
Proof.
  intros bare.
  destruct (scalar_fields_decoded sample_group)
    as (_ & _ & _ & HG & _ & _ & HD & _ & _ & HGr & _ & _).
  destruct (scalar_fields_decoded sample_topic)
    as (_ & _ & _ & _ & HT & _ & _ & _ & _ & _ & HTr & _).
  destruct (scalar_fields_decoded bare)
    as (_ & _ & _ & _ & _ & HM & _).
  destruct (scalar_fields_decoded sample_message)
    as (_ & _ & _ & _ & _ & _ & _ & _ & HMd & _ & _ & HMr).
  assert (Hret : (Group.import_from_api (VDict sample_group)
                    Group.__init__).2 = Ok tt).
  { apply (HGr Group.__init__ (gmtime 86400) (gmtime 0) sample_user
             eq_refl eq_refl eq_refl).
    right. exists [sample_user; ∅]. reflexivity. }
  repeat apply conj.
  - destruct (Group.import_from_api (VDict sample_group) Group.__init__)
      as [g' r] eqn:E.
    cbn [snd] in Hret. subst r. exists g'. split; [reflexivity|].
    destruct (HG Group.__init__ g' E)
      as ((Hkind & _) & _ & _ & _ & _ & _ & _ & (_ & Hid)).
    split; [by apply Hid|by apply Hkind].
  - rewrite (HD "id" Group.__init__ ltac:(in_list)). exact Hret.
  - apply (HTr Topic.__init__ (gmtime 0) (gmtime 60) sample_user
             eq_refl eq_refl eq_refl).
  - pose proof (HT Topic.__init__) as H. cbv zeta in H.
    destruct H as (_ & (_ & H) & _). by apply H.
  - pose proof (HT Topic.__init__) as H. cbv zeta in H.
    destruct H as (_ & _ & (H & _) & _). by apply H.
  - reflexivity.
  - pose proof (HM Message.__init__) as H. cbv zeta in H.
    destruct H as ((_ & H) & _). by apply H.
  - pose proof (HM Message.__init__) as H. cbv zeta in H.
    destruct H as (_ & (_ & H)). by apply H.
  - rewrite (HMd "message" Message.__init__ ltac:(in_list)).
    apply (HMr Message.__init__ (gmtime 0) sample_user eq_refl eq_refl).
Defined.

(** ** Timestamps and nested entities *)

Lemma Group_import_strict m g :
  is_ok (Group.import_from_api (VDict m) g).2 = true →
  ∃ t1 t2 c,
    utcfromtimestamp (lookup_or_none m "date_latest_message") = Ok t1 ∧
    utcfromtimestamp (lookup_or_none m "date_created") = Ok t2 ∧
    m !! "creator" = Some (VDict c).
Proof.
  destruct (Group.import_from_api (VDict m) g) as [g' [[]|e]] eqn:H;
    [|discriminate].
  intros _. by eapply Group_import_ok_inv.
Qed.

Lemma Topic_import_strict m o :
  is_ok (Topic.import_from_api (VDict m) o).2 = true →
  ∃ t1 t2 c,
    utcfromtimestamp (lookup_or_none m "date_created") = Ok t1 ∧
    utcfromtimestamp (lookup_or_none m "date_latest_message") = Ok t2 ∧
    m !! "creator" = Some (VDict c).
Proof.
  destruct (Topic.import_from_api (VDict m) o) as [o' [[]|e]] eqn:H;
    [|discriminate].
  intros _. by eapply Topic_import_ok_inv.
Qed.

Lemma Message_import_strict m o :
  is_ok (Message.import_from_api (VDict m) o).2 = true →
  ∃ t c,
    utcfromtimestamp (lookup_or_none m "date_created") = Ok t ∧
    m !! "user" = Some (VDict c).
Proof.
  destruct (Message.import_from_api (VDict m) o) as [o' [[]|e]] eqn:H;
    [|discriminate].
  intros _. by eapply Message_import_ok_inv.
Qed.

Lemma not_ok_false {A} (r : result A) : ¬ is_ok r = true → is_ok r = false.
Proof. by destruct r; simpl; [intros []|]. Qed.

(** A mapping in which [k] is missing, or holds something that is not a
    mapping. *)
Lemma nested_absent (m : gmap string value) k c :
  (m !! k = None ∨ ∃ v, m !! k = Some v ∧ ¬ is_dict v) →
  m !! k = Some (VDict c) → False.
Proof.
  intros [Hn|(v & Hv & Hd)] Hc; [congruence|].
  rewrite Hv in Hc. injection Hc as ->. apply Hd. by eexists.
Qed.

Lemma timestamp_absent (m : gmap string value) k t :
  m !! k = None → utcfromtimestamp (lookup_or_none m k) = Ok t → False.
Proof. intros Hk. rewrite (utcfromtimestamp_missing _ _ Hk). discriminate. Qed.

(** C3: [Group], [Topic] and [Message] decoding fails when a timestamp key
    it reads is missing, and when the nested mapping ([creator], resp.
    [user]) is missing or is not a mapping; nothing is defaulted.  When the
    timestamp keys hold epoch seconds (of a representable date) and the
    nested key a mapping, decoding returns, each timestamp field is the UTC
    date-time of its epoch seconds and the nested entity is the user
    decoded from the nested mapping.  (For a group the [friend_list], if
    any, must be an array of mappings as well.) *)
Theorem strict_fields_decoded (m : gmap string value) :
  (∀ g,
     m !! "date_latest_message" = None ∨ m !! "date_created" = None ∨
     m !! "creator" = None ∨ (∃ v, m !! "creator" = Some v ∧ ¬ is_dict v) →
     is_ok (Group.import_from_api (VDict m) g).2 = false) ∧
  (∀ o,
     m !! "date_created" = None ∨ m !! "date_latest_message" = None ∨
     m !! "creator" = None ∨ (∃ v, m !! "creator" = Some v ∧ ¬ is_dict v) →
     is_ok (Topic.import_from_api (VDict m) o).2 = false) ∧
  (∀ o,
     m !! "date_created" = None ∨
     m !! "user" = None ∨ (∃ v, m !! "user" = Some v ∧ ¬ is_dict v) →
     is_ok (Message.import_from_api (VDict m) o).2 = false) ∧
  (∀ g n1 n2 c,
     m !! "date_latest_message" = Some (VInt n1) →
     m !! "date_created" = Some (VInt n2) →
     MIN_TIMESTAMP ≤ n1 ≤ MAX_TIMESTAMP →
     MIN_TIMESTAMP ≤ n2 ≤ MAX_TIMESTAMP →
     m !! "creator" = Some (VDict c) →
     (m !! "friend_list" = None ∨
      ∃ ms, m !! "friend_list" = Some (VList (VDict <$> ms))) →
     ∃ g', Group.import_from_api (VDict m) g = (g', Ok tt) ∧
           Group.date_latest_message g' = Some (gmtime n1) ∧
           Group.date_created g' = Some (gmtime n2) ∧
           Group.creator g' =
             Some (User.mk (lookup_or_none c "username")
                     (lookup_or_none c "url") (lookup_or_none c "id")
                     (lookup_or_none c "img"))) ∧
  (∀ o n1 n2 c,
     m !! "date_created" = Some (VInt n1) →
     m !! "date_latest_message" = Some (VInt n2) →
     MIN_TIMESTAMP ≤ n1 ≤ MAX_TIMESTAMP →
     MIN_TIMESTAMP ≤ n2 ≤ MAX_TIMESTAMP →
     m !! "creator" = Some (VDict c) →
     ∃ o', Topic.import_from_api (VDict m) o = (o', Ok tt) ∧
           Topic.date_created o' = Some (gmtime n1) ∧
           Topic.date_latest_message o' = Some (gmtime n2) ∧
           Topic.creator o' =
             Some (User.mk (lookup_or_none c "username")
                     (lookup_or_none c "url") (lookup_or_none c "id")
                     (lookup_or_none c "img"))) ∧
  (∀ o n c,
     m !! "date_created" = Some (VInt n) →
     MIN_TIMESTAMP ≤ n ≤ MAX_TIMESTAMP →
     m !! "user" = Some (VDict c) →
     ∃ o', Message.import_from_api (VDict m) o = (o', Ok tt) ∧
           Message.date_created o' = Some (gmtime n) ∧
           Message.user o' =
             Some (User.mk (lookup_or_none c "username")
                     (lookup_or_none c "url") (lookup_or_none c "id")
                     (lookup_or_none c "img"))).
Proof.
  repeat apply conj.
  - intros g H. apply not_ok_false. intros Hok.
    apply Group_import_strict in Hok as (t1 & t2 & c & H1 & H2 & H3).
    destruct H as [H|[H|H]];
      eauto using timestamp_absent, nested_absent.
  - intros o H. apply not_ok_false. intros Hok.
    apply Topic_import_strict in Hok as (t1 & t2 & c & H1 & H2 & H3).
    destruct H as [H|[H|H]];
      eauto using timestamp_absent, nested_absent.
  - intros o H. apply not_ok_false. intros Hok.
    apply Message_import_strict in Hok as (t & c & H1 & H3).
    destruct H as [H|H];
      eauto using timestamp_absent, nested_absent.
  - intros g n1 n2 c H1 H2 R1 R2 H3 Hf.
    rewrite (Group_import_dict m g (gmtime n1) (gmtime n2) c)
      by eauto using utcfromtimestamp_seconds.
    cbv zeta. destruct Hf as [->|[ms ->]].
    + eexists. split; [reflexivity|]. repeat split.
    + cbn [iter]. erewrite friends_loop_dicts by reflexivity.
      eexists. split; [reflexivity|]. repeat split.
  - intros o n1 n2 c H1 H2 R1 R2 H3.
    rewrite (Topic_import_dict m o (gmtime n1) (gmtime n2) c)
      by eauto using utcfromtimestamp_seconds.
    eexists. split; [reflexivity|]. repeat split.
  - intros o n c H1 R1 H3.
    rewrite (Message_import_dict m o (gmtime n) c)
      by eauto using utcfromtimestamp_seconds.
    eexists. split; [reflexivity|]. repeat split.
Qed.

Lemma strict_fields_decoded_witness :
  (∃ o', Message.import_from_api (VDict sample_message) Message.__init__
           = (o', Ok tt) ∧
         Message.date_created o' = Some (mk_datetime 1970 1 1 0 0 0 0) ∧
         Message.user o' = Some (User.mk (VStr "a") VNone (VInt 1) VNone)) ∧
  is_ok (Group.import_from_api
           (VDict (delete "date_created" sample_group)) Group.__init__).2
    = false ∧
  is_ok (Topic.import_from_api
           (VDict (<["creator" := VStr "a"]> sample_topic)) Topic.__init__).2
    = false.
Proof.
  split; [|split].
  - destruct (strict_fields_decoded sample_message)
      as (_ & _ & _ & _ & _ & H).
    destruct (H Message.__init__ 0 sample_user eq_refl
                ltac:(unfold MIN_TIMESTAMP, MAX_TIMESTAMP; lia) eq_refl)
      as (o' & Ho & Hd & Hu).
    exists o'. split; [exact Ho|]. split; [exact Hd|]. exact Hu.
  - destruct (strict_fields_decoded (delete "date_created" sample_group))
      as (H & _).
    apply H. right. left. reflexivity.
  - destruct (strict_fields_decoded (<["creator" := VStr "a"]> sample_topic))
      as (_ & H & _).
    apply H. right. right. right. exists (VStr "a").
    split; [reflexivity|]. intros [m' Hm]. discriminate.
Defined.

(** ** Resource collections *)

Lemma on_new_run {S T} (init : T) (import : value → M T unit) v (s : S) :
  on_new init (import v) s = (s, decode init import v).
Proof. unfold on_new, decode. by destruct (import v init) as [o [[]|e]]. Qed.

(** A loop that appends what each element decodes to. *)
Lemma for_in_collect {S A B} (dec : A → result B)
    (body : list B → A → M S (list B)) :
  (∀ acc x s, body acc x s =
     (s, match dec x with Ok y => Ok (acc ++ [y]) | Raise e => Raise e end)) →
  ∀ l acc s,
    (for_in l acc body s).1 = s ∧
    ∀ es, (for_in l acc body s).2 = Ok es ↔
          ∃ ys, es = acc ++ ys ∧ Forall2 (λ x y, dec x = Ok y) l ys.
Proof.
  intros Hbody. induction l as [|x l IH]; intros acc s.
  - split; [reflexivity|]. intros es. simpl. split.
    + intros [= <-]. exists []. split; [by rewrite app_nil_r|constructor].
    + intros (ys & -> & Hys). inversion Hys. by rewrite app_nil_r.
  - simpl. rewrite bind_run, Hbody. destruct (dec x) as [y|e] eqn:Hx.
    + destruct (IH (acc ++ [y]) s) as [IH1 IH2]. split; [exact IH1|].
      intros es. rewrite IH2. split.
      * intros (ys & -> & Hys). exists (y :: ys).
        split; [by rewrite <- app_assoc|]. by constructor.
      * intros (ys & -> & Hys). inversion Hys as [|? y' ? ys' Hy Hys']; subst.
        exists ys'. split; [|exact Hys'].
        rewrite <- app_assoc. simpl. congruence.
    + split; [reflexivity|]. intros es. simpl. split; [discriminate|].
      intros (ys & _ & Hys). inversion Hys; congruence.
Qed.

Lemma for_in_collect_nil {S A B} (dec : A → result B)
    (body : list B → A → M S (list B)) l s es :
  (∀ acc x s, body acc x s =
     (s, match dec x with Ok y => Ok (acc ++ [y]) | Raise e => Raise e end)) →
  (for_in l [] body s).2 = Ok es ↔ Forall2 (λ x y, dec x = Ok y) l es.
Proof.
  intros Hbody. destruct (for_in_collect dec body Hbody l [] s) as [_ H].
  rewrite H. split.
  - by intros (ys & -> & Hys).
  - intros Hys. by exists es.
Qed.

(** The shape shared by the operations that return a list. *)
Lemma list_op_run {T} C path key (body : list T → value → M World (list T)) w :
  (response ← get C path ∅;
   body_ ← lift (deserialize C (content response));
   envelope ← lift (getitem body_ key);
   items ← lift (iter envelope);
   for_in items [] body) w =
  match get C path ∅ w with
  | (w', Raise e) => (w', Raise e)
  | (w', Ok resp) =>
      match deserialize C (content resp) with
      | Raise e => (w', Raise e)
      | Ok b =>
          match getitem b key with
          | Raise e => (w', Raise e)
          | Ok envelope =>
              match iter envelope with
              | Raise e => (w', Raise e)
              | Ok items => for_in items [] body w'
              end
          end
      end
  end.
Proof.
  rewrite bind_run. destruct (get C path ∅ w) as [w' [resp|e]]; [|reflexivity].
  rewrite bind_run. unfold lift at 1.
  destruct (deserialize C (content resp)) as [b|e]; [|reflexivity].
  rewrite bind_run. unfold lift at 1.
  destruct (getitem b key) as [envelope|e]; [|reflexivity].
  rewrite bind_run. unfold lift at 1.
  destruct (iter envelope) as [items|e]; reflexivity.
Qed.

(** The shape shared by the operations that return one entity. *)
Lemma single_op_run {T} C path key (init : T) (import : value → M T unit) w :
  (response ← get C path ∅;
   body_ ← lift (deserialize C (content response));
   x ← lift (getitem body_ key);
   on_new init (import x)) w =
  match get C path ∅ w with
  | (w', Raise e) => (w', Raise e)
  | (w', Ok resp) =>
      match deserialize C (content resp) with
      | Raise e => (w', Raise e)
      | Ok b =>
          match getitem b key with
          | Raise e => (w', Raise e)
          | Ok x => (w', decode init import x)
          end
      end
  end.
Proof.
  rewrite bind_run. destruct (get C path ∅ w) as [w' [resp|e]]; [|reflexivity].
  rewrite bind_run. unfold lift at 1.
  destruct (deserialize C (content resp)) as [b|e]; [|reflexivity].
  rewrite bind_run. unfold lift at 1.
  destruct (getitem b key) as [x|e]; [|reflexivity].
  apply on_new_run.
Qed.

Lemma list_op_strict {T} C path key (body : list T → value → M World (list T)) :
  envelope_strict C path key
    (response ← get C path ∅;
     body_ ← lift (deserialize C (content response));
     envelope ← lift (getitem body_ key);
     items ← lift (iter envelope);
     for_in items [] body).
Proof.
  intros w w' resp m Hg Hd Hk. rewrite list_op_run, Hg, Hd.
  cbn [getitem]. by rewrite Hk.
Qed.

Lemma single_op_strict {T} C path key (init : T) (import : value → M T unit) :
  envelope_strict C path key
    (response ← get C path ∅;
     body_ ← lift (deserialize C (content response));
     x ← lift (getitem body_ key);
     on_new init (import x)).
Proof.
  intros w w' resp m Hg Hd Hk. rewrite single_op_run, Hg, Hd.
  cbn [getitem]. by rewrite Hk.
Qed.

Lemma list_op_ordered {T} C path key (dec : value → result T)
    (body : list T → value → M World (list T)) :
  (∀ acc x s, body acc x s =
     (s, match dec x with Ok y => Ok (acc ++ [y]) | Raise e => Raise e end)) →
  envelope_ordered C path key dec
    (response ← get C path ∅;
     body_ ← lift (deserialize C (content response));
     envelope ← lift (getitem body_ key);
     items ← lift (iter envelope);
     for_in items [] body).
Proof.
  intros Hbody w w' resp m items Hg Hd Hk es.
  rewrite list_op_run, Hg, Hd. cbn [getitem]. rewrite Hk. cbn [iter].
  by apply for_in_collect_nil.
Qed.

Lemma collect_decoded {S T} (init : T) (import : value → M T unit)
    (acc : list T) x (s : S) :
  (o ← on_new init (import x); mret (acc ++ [o])) s =
    (s, match decode init import x with
        | Ok y => Ok (acc ++ [y])
        | Raise e => Raise e
        end).
Proof.
  rewrite bind_run, on_new_run. by destruct (decode init import x).
Qed.

Lemma collect_joined (acc : list Group.t) x (s : World) :
  (group ← on_new Group.__init__ (Group.import_from_api x);
   let group := Group.set_joined true group in
   mret (acc ++ [group])) s =
    (s, match decode_joined x with
        | Ok y => Ok (acc ++ [y])
        | Raise e => Raise e
        end).
Proof.
  rewrite bind_run, on_new_run. unfold decode_joined.
  by destruct (decode Group.__init__ Group.import_from_api x).
Qed.

Lemma collect_member (acc : list User.t) x (s : World) :
  (u ← lift (dict_get x "user" VNone);
   user ← on_new User.__init__ (User.import_from_api u);
   mret (acc ++ [user])) s =
    (s, match decode_member x with
        | Ok y => Ok (acc ++ [y])
        | Raise e => Raise e
        end).
Proof.
  rewrite bind_run. unfold lift at 1, decode_member.
  destruct (dict_get x "user" VNone) as [u|e]; [|reflexivity].
  apply collect_decoded.
Qed.

(** C6: every resource-collection operation fails with [KeyError] when the
    decoded body is a mapping without the operation's envelope key, instead
    of returning a default entity; when the key holds an array, the
    operations that return a list return exactly the entities the elements
    decode to, one per element and in the order of the array (and fail if
    an element does not decode). *)
Theorem envelope_keys C (group_id topic_id user_id : segment) :
  (envelope_strict C [SegStr "groups"] "groups" (Groups.get_user_groups C) ∧
   envelope_strict C [SegStr "groups"; group_id] "group"
     (Groups.get_group C group_id) ∧
   envelope_strict C [SegStr "groups"; group_id; SegStr "members"] "members"
     (Groups.get_group_members C group_id) ∧
   envelope_strict C [SegStr "groups"; group_id; SegStr "online"] "online"
     (Groups.get_group_online_members C group_id) ∧
   envelope_strict C [SegStr "groups"; group_id; SegStr "topics"] "topics"
     (Groups.get_group_topics C group_id) ∧
   envelope_strict C [SegStr "topics"; topic_id] "topic"
     (Topics.get_topic C topic_id) ∧
   envelope_strict C [SegStr "topics"; topic_id; SegStr "messages"] "messages"
     (Topics.get_messages C topic_id) ∧
   envelope_strict C [SegStr "users"; user_id] "user"
     (Users.get_user C user_id)) ∧
  (envelope_ordered C [SegStr "groups"] "groups" decode_joined
     (Groups.get_user_groups C) ∧
   envelope_ordered C [SegStr "groups"; group_id; SegStr "members"] "members"
     decode_member (Groups.get_group_members C group_id) ∧
   envelope_ordered C [SegStr "groups"; group_id; SegStr "online"] "online"
     (decode User.__init__ User.import_from_api)
     (Groups.get_group_online_members C group_id) ∧
   envelope_ordered C [SegStr "groups"; group_id; SegStr "topics"] "topics"
     (decode Topic.__init__ Topic.import_from_api)
     (Groups.get_group_topics C group_id) ∧
   envelope_ordered C [SegStr "topics"; topic_id; SegStr "messages"] "messages"
     (decode Message.__init__ Message.import_from_api)
     (Topics.get_messages C topic_id)).
Proof.
  split.
  - repeat apply conj;
      first [apply list_op_strict | apply single_op_strict].
  - repeat apply conj; apply list_op_ordered; intros acc x s;
      first [apply collect_joined | apply collect_member
            | apply collect_decoded].
Qed.

Lemma get_fixed_client s body path :
  ¬ error_status s →
  get (fixed_client s body) path ∅ logged_in =
    (mk_world (Some ("user", "secret"))
       [mk_request GET (url_of path) VNone VNone ("user", "secret")],
     Ok (mk_response s "")).
Proof.
  intros Hs. rewrite (get_run _ path ∅ logged_in ("user", "secret") eq_refl).
  cbv zeta. cbn [fixed_client send mbind result_bind].
  rewrite safe_response_fine by exact Hs. reflexivity.
Qed.

Lemma envelope_keys_witness :
  (Groups.get_group groups_client (SegInt 7) logged_in).2 = Raise KeyError ∧
  (Groups.get_group_members members_client (SegInt 7) logged_in).2
    = Ok [User.mk (VStr "a") VNone (VInt 1) VNone].
Proof.
  split.
  - destruct (envelope_keys groups_client (SegInt 7) (SegInt 7) (SegInt 7))
      as [(_ & H & _) _].
    rewrite (H logged_in _ _ _ (get_fixed_client _ _ _ status_200_fine)
               eq_refl eq_refl).
    reflexivity.
  - destruct (envelope_keys members_client (SegInt 7) (SegInt 7) (SegInt 7))
      as [_ (_ & H & _)].
    apply (H logged_in _ _ _ _ (get_fixed_client _ _ _ status_200_fine)
             eq_refl eq_refl).
    repeat constructor.
Defined.

Lemma decode_group_not_joined v g :
  decode Group.__init__ Group.import_from_api v = Ok g →
  Group.joined g = false.
Proof.
  unfold decode. pose proof (Group_import_keeps_joined v Group.__init__) as Hk.
  destruct (Group.import_from_api v Group.__init__) as [o [[]|e]];
    [|discriminate].
  intros [= <-]. exact Hk.
Qed.

Lemma decode_joined_true v g : decode_joined v = Ok g → Group.joined g = true.
Proof.
  unfold decode_joined.
  destruct (decode Group.__init__ Group.import_from_api v); [|discriminate].
  by intros [= <-].
Qed.

(** C5: every group returned by [get_user_groups] has [joined] true, and the
    group returned by [get_group], for any group id and any response on
    which it returns, has [joined] false: the server, the codec and hence
    the payload are arbitrary here, so the flag depends on the operation
    only. *)
Theorem joined_by_operation C w :
  (∀ w' gs, Groups.get_user_groups C w = (w', Ok gs) →
            Forall (λ g, Group.joined g = true) gs) ∧
  (∀ group_id w' g, Groups.get_group C group_id w = (w', Ok g) →
                    Group.joined g = false).
Proof.
  split.
  - intros w' gs H. unfold Groups.get_user_groups in H.
    rewrite list_op_run in H.
    destruct (get C [SegStr "groups"] ∅ w) as [w1 [resp|e]]; [|discriminate].
    destruct (deserialize C (content resp)) as [b|e]; [|discriminate].
    destruct (getitem b "groups") as [envelope|e]; [|discriminate].
    destruct (iter envelope) as [items|e]; [|discriminate].
    assert (Hgs : Forall2 (λ v e, decode_joined v = Ok e) items gs).
    { eapply for_in_collect_nil; [apply collect_joined|].
      by rewrite H. }
    clear H. induction Hgs as [|v g items gs Hv _ IH]; constructor.
    + by eapply decode_joined_true.
    + exact IH.
  - intros group_id w' g H. unfold Groups.get_group in H.
    rewrite single_op_run in H.
    destruct (get C [SegStr "groups"; group_id] ∅ w) as [w1 [resp|e]];
      [|discriminate].
    destruct (deserialize C (content resp)) as [b|e]; [|discriminate].
    destruct (getitem b "group") as [x|e]; [|discriminate].
    injection H as _ H. by eapply decode_group_not_joined.
Qed.

Lemma joined_by_operation_witness :
  (∃ gs, (Groups.get_user_groups groups_client logged_in).2 = Ok gs ∧
         length gs = 1%nat ∧ Forall (λ g, Group.joined g = true) gs) ∧
  (∃ g, (Groups.get_group group_client (SegInt 7) logged_in).2 = Ok g ∧
        Group.joined g = false).
Proof.
  split.
  - destruct (Groups.get_user_groups groups_client logged_in)
      as [w' [gs|e]] eqn:E.
    + pose proof (proj1 (joined_by_operation groups_client logged_in)
                    w' gs E) as HJ.
      exists gs. split; [reflexivity|]. split; [|exact HJ].
      vm_compute in E. by injection E as _ <-.
    + vm_compute in E. discriminate.
  - destruct (Groups.get_group group_client (SegInt 7) logged_in)
      as [w' [g|e]] eqn:E.
    + exists g. split; [reflexivity|].
      exact (proj2 (joined_by_operation group_client logged_in)
               (SegInt 7) w' g E).
    + vm_compute in E. discriminate.
Defined.


(** * Further properties of the module *)

(** ** Operations and their transport *)

Lemma discard_run {S A} (m : M S A) s :
  discard m s = ((m s).1, match (m s).2 with
                          | Ok _ => Ok tt
                          | Raise e => Raise e
                          end).
Proof. unfold discard. rewrite bind_run. by destruct (m s) as [s' [a|e]]. Qed.

Lemma for_in_collect_state {S A B} (dec : A → result B)
    (body : list B → A → M S (list B)) l acc s :
  (∀ acc x s, body acc x s =
     (s, match dec x with Ok y => Ok (acc ++ [y]) | Raise e => Raise e end)) →
  (for_in l acc body s).1 = s.
Proof. intros Hbody. by destruct (for_in_collect dec body Hbody l acc s). Qed.

(** What a list-returning operation does around its loop. *)
Lemma list_op_transport {T} C path key (dec : value → result T)
    (body : list T → value → M World (list T)) w :
  (∀ acc x s, body acc x s =
     (s, match dec x with Ok y => Ok (acc ++ [y]) | Raise e => Raise e end)) →
  let op := (response ← get C path ∅;
             body_ ← lift (deserialize C (content response));
             envelope ← lift (getitem body_ key);
             items ← lift (iter envelope);
             for_in items [] body) in
  (op w).1 = (get C path ∅ w).1 ∧
  match (get C path ∅ w).2 with
  | Raise e => (op w).2 = Raise e
  | Ok resp =>
      match deserialize C (content resp) with
      | Raise e => (op w).2 = Raise e
      | Ok b =>
          match getitem b key with
          | Raise e => (op w).2 = Raise e
          | Ok envelope =>
              match iter envelope with
              | Raise e => (op w).2 = Raise e
              | Ok items =>
                  (op w).2 = (for_in items [] body (get C path ∅ w).1).2
              end
          end
      end
  end.
Proof.
  intros Hbody op. unfold op. rewrite list_op_run.
  destruct (get C path ∅ w) as [w' [resp|e]]; [|by split].
  cbn [fst snd].
  destruct (deserialize C (content resp)) as [b|e]; [|by split].
  destruct (getitem b key) as [envelope|e]; [|by split].
  destruct (iter envelope) as [items|e]; [|by split].
  split; [|reflexivity]. by eapply for_in_collect_state.
Qed.

Lemma single_op_transport {T} C path key (init : T)
    (import : value → M T unit) w :
  let op := (response ← get C path ∅;
             body_ ← lift (deserialize C (content response));
             x ← lift (getitem body_ key);
             on_new init (import x)) in
  (op w).1 = (get C path ∅ w).1 ∧
  match (get C path ∅ w).2 with
  | Raise e => (op w).2 = Raise e
  | Ok resp =>
      match deserialize C (content resp) with
      | Raise e => (op w).2 = Raise e
      | Ok b =>
          match getitem b key with
          | Raise e => (op w).2 = Raise e
          | Ok x => (op w).2 = decode init import x
          end
      end
  end.
Proof.
  intros op. unfold op. rewrite single_op_run.
  destruct (get C path ∅ w) as [w' [resp|e]]; [|by split].
  cbn [fst snd].
  destruct (deserialize C (content resp)) as [b|e]; [|by split].
  destruct (getitem b key) as [x|e]; by split.
Qed.

Lemma list_op_transport_of {T} C path key (dec : value → result T)
    (body : list T → value → M World (list T)) w :
  (∀ acc x s, body acc x s =
     (s, match dec x with Ok y => Ok (acc ++ [y]) | Raise e => Raise e end)) →
  transport_of C path key
    (response ← get C path ∅;
     body_ ← lift (deserialize C (content response));
     envelope ← lift (getitem body_ key);
     items ← lift (iter envelope);
     for_in items [] body) w.
Proof.
  intros Hbody. destruct (list_op_transport C path key dec body w Hbody)
    as [H1 H2].
  split; [exact H1|].
  destruct ((get C path ∅ w).2) as [resp|e]; [|exact H2].
  destruct (deserialize C (content resp)) as [b|e]; [|exact H2].
  destruct (getitem b key) as [envelope|e]; [done|exact H2].
Qed.

Lemma single_op_transport_of {T} C path key (init : T)
    (import : value → M T unit) w :
  transport_of C path key
    (response ← get C path ∅;
     body_ ← lift (deserialize C (content response));
     x ← lift (getitem body_ key);
     on_new init (import x)) w.
Proof.
  destruct (single_op_transport C path key init import w) as [H1 H2].
  split; [exact H1|].
  destruct ((get C path ∅ w).2) as [resp|e]; [|exact H2].
  destruct (deserialize C (content resp)) as [b|e]; [|exact H2].
  destruct (getitem b key) as [envelope|e]; [done|exact H2].
Qed.

Lemma transport_of_discard {T} C path key (op : M World T) w :
  transport_of C path key op w → transport_of C path key (discard op) w.
Proof.
  intros [H1 H2]. unfold transport_of. rewrite discard_run. cbn [fst snd].
  split; [exact H1|].
  destruct ((get C path ∅ w).2) as [resp|e]; [|by rewrite H2].
  destruct (deserialize C (content resp)) as [b|e]; [|by rewrite H2].
  destruct (getitem b key) as [envelope|e]; [done|by rewrite H2].
Qed.

(** Every operation does its transport through one [get] on its
    endpoint. *)
Lemma run_operation_transport C o w :
  transport_of C (endpoint o) (envelope_key o) (run_operation C o) w.
Proof.
  destruct o; apply transport_of_discard; cbn [endpoint envelope_key].
  - eapply list_op_transport_of, collect_joined.
  - apply single_op_transport_of.
  - eapply list_op_transport_of, collect_member.
  - eapply list_op_transport_of, collect_decoded.
  - eapply list_op_transport_of, collect_decoded.
  - apply single_op_transport_of.
  - eapply list_op_transport_of, collect_decoded.
  - apply single_op_transport_of.
Qed.

Lemma get_for_operation C o w a :
  auth w = Some a →
  get C (endpoint o) ∅ w =
    (mk_world (Some a) (sent w ++ [request_of o a]),
     r ← send C (request_of o a); _safe_response r VNone).
Proof.
  intros Ha. rewrite (get_run _ _ _ _ _ Ha). cbv zeta. by rewrite Ha.
Qed.

(** X1: before [login] has run the global [auth] is unbound (the module
    initialises [AUTH], another name): [get], [post] and every resource
    operation raise [NameError], and no request is issued. *)
Theorem nothing_before_login C o w path kwargs params :
  auth w = None →
  get C path kwargs w = (w, Raise NameError) ∧
  post C params path w = (w, Raise NameError) ∧
  run_operation C o w = (w, Raise NameError).
Proof.
  intros Ha. split; [by apply get_before_login|].
  split; [by apply post_before_login|].
  destruct (run_operation_transport C o w) as [H1 H2].
  rewrite (get_before_login _ _ _ _ Ha) in H1, H2. cbn [fst snd] in H1, H2.
  rewrite (surjective_pairing (run_operation C o w)). by rewrite H1, H2.
Qed.

Lemma nothing_before_login_witness :
  Groups.get_user_groups groups_client logged_out
    = (logged_out, Raise NameError) ∧
  run_operation groups_client (GetGroup (SegInt 7)) logged_out
    = (logged_out, Raise NameError).
Proof.
  split; [reflexivity|].
  apply (nothing_before_login groups_client (GetGroup (SegInt 7)) logged_out
           [] ∅ VNone eq_refl).
Defined.

(** X3: once logged in, every resource operation issues exactly one
    request, whatever its outcome: a GET on the operation's endpoint, with
    the current credentials, no query parameters and no body.  The
    credentials are left as they were. *)
Theorem one_request_per_operation C o w a :
  auth w = Some a →
  sent (run_operation C o w).1 =
    sent w ++ [mk_request GET (url_of (endpoint o)) VNone VNone a] ∧
  auth (run_operation C o w).1 = Some a.
Proof.
  intros Ha. destruct (run_operation_transport C o w) as [H1 _].
  rewrite H1, (get_for_operation _ _ _ _ Ha). by split.
Qed.

Lemma one_request_per_operation_witness :
  sent (run_operation (fixed_client 500 VNone)
          (GetGroupTopics (SegInt 42)) logged_in).1 =
    [mk_request GET "https://convore.com/api/groups/42/topics.json"
       VNone VNone ("user", "secret")].
Proof.
  destruct (one_request_per_operation (fixed_client 500 VNone)
              (GetGroupTopics (SegInt 42)) logged_in ("user", "secret")
              eq_refl) as [H _].
  rewrite H. reflexivity.
Defined.

(** X4: an HTTP error status aborts every resource operation before the
    body is decoded: status 401 raises [LoginFailed], any other 4xx or 5xx
    status raises the bare [APIError] (the operations pass no message),
    whatever the body and the codec. *)
Theorem http_errors_abort_operations C o w a resp :
  auth w = Some a →
  send C (mk_request GET (url_of (endpoint o)) VNone VNone a) = Ok resp →
  (status_code resp = 401 →
     (run_operation C o w).2 = Raise LoginFailed) ∧
  (error_status (status_code resp) → status_code resp ≠ 401 →
     (run_operation C o w).2 = Raise (APIError None)).
Proof.
  intros Ha Hr. destruct (run_operation_transport C o w) as [_ H2].
  rewrite (get_for_operation _ _ _ _ Ha) in H2. cbn [snd] in H2.
  unfold request_of in H2. rewrite Hr in H2. cbn [mbind result_bind] in H2.
  split.
  - intros Hs. by rewrite (safe_response_401 _ _ Hs) in H2.
  - intros He Hn. by rewrite (safe_response_error _ _ He Hn) in H2.
Qed.

Lemma http_errors_abort_operations_witness :
  (run_operation (fixed_client 401 (VDict sample_user))
     (GetUser (SegInt 1)) logged_in).2 = Raise LoginFailed ∧
  (run_operation (fixed_client 404 (VDict sample_user))
     (GetUser (SegInt 1)) logged_in).2 = Raise (APIError None).
Proof.
  split.
  - destruct (http_errors_abort_operations
                (fixed_client 401 (VDict sample_user)) (GetUser (SegInt 1))
                logged_in ("user", "secret") (mk_response 401 "")
                eq_refl eq_refl) as [H _].
    apply H. reflexivity.
  - destruct (http_errors_abort_operations
                (fixed_client 404 (VDict sample_user)) (GetUser (SegInt 1))
                logged_in ("user", "secret") (mk_response 404 "")
                eq_refl eq_refl) as [_ H].
    apply H.
    + unfold error_status. simpl. lia.
    + simpl. lia.
Defined.

Lemma getitem_not_dict b k : ¬ is_dict b → getitem b k = Raise TypeError.
Proof.
  intros Hb. destruct b; try reflexivity. exfalso. apply Hb. by eexists.
Qed.

(** X5: when the response has no error status, a body the codec rejects
    makes every resource operation raise the codec's exception, and a body
    that decodes to anything but a mapping (an array, a string, a number,
    null) makes it raise [TypeError]. *)
Theorem bad_body_fails C o w a resp :
  auth w = Some a →
  send C (mk_request GET (url_of (endpoint o)) VNone VNone a) = Ok resp →
  ¬ error_status (status_code resp) →
  (∀ e, deserialize C (content resp) = Raise e →
        (run_operation C o w).2 = Raise e) ∧
  (∀ b, deserialize C (content resp) = Ok b → ¬ is_dict b →
        (run_operation C o w).2 = Raise TypeError).
Proof.
  intros Ha Hr Hs. destruct (run_operation_transport C o w) as [_ H2].
  rewrite (get_for_operation _ _ _ _ Ha) in H2. cbn [snd] in H2.
  unfold request_of in H2. rewrite Hr in H2. cbn [mbind result_bind] in H2.
  rewrite (safe_response_fine _ _ Hs) in H2. split.
  - intros e He. by rewrite He in H2.
  - intros b Hb Hn. rewrite Hb, (getitem_not_dict _ _ Hn) in H2. exact H2.
Qed.

Lemma bad_body_fails_witness :
  (run_operation (fixed_client 200 (VList [VDict sample_group]))
     GetUserGroups logged_in).2 = Raise TypeError ∧
  (run_operation (mk_client (λ _, Ok (mk_response 200 "<html>"))
                    (λ _, Raise ValueError))
     GetUserGroups logged_in).2 = Raise ValueError.
Proof.
  split.
  - destruct (bad_body_fails (fixed_client 200 (VList [VDict sample_group]))
                GetUserGroups logged_in ("user", "secret")
                (mk_response 200 "") eq_refl eq_refl
                status_200_fine) as [_ H].
    apply (H (VList [VDict sample_group]) eq_refl).
    intros [m Hm]. discriminate.
  - destruct (bad_body_fails
                (mk_client (λ _, Ok (mk_response 200 "<html>"))
                   (λ _, Raise ValueError))
                GetUserGroups logged_in ("user", "secret")
                (mk_response 200 "<html>") eq_refl eq_refl
                status_200_fine) as [H _].
    apply H. reflexivity.
Defined.

(** ** Credentials *)

(** X2: [login] stores the credential pair and sends nothing; the next
    transport call carries exactly that pair, whatever was stored before,
    so a later [login] replaces an earlier one. *)
Theorem login_sets_credentials C u p u0 p0 path kwargs w :
  login u p w = (mk_world (Some (u, p)) (sent w), Ok tt) ∧
  (∃ rq, sent ((login u p ;; get C path kwargs) w).1 = sent w ++ [rq] ∧
         req_auth rq = (u, p)) ∧
  (∃ rq, sent ((login u0 p0 ;; login u p ;; get C path kwargs) w).1
           = sent w ++ [rq] ∧
         req_auth rq = (u, p)).
Proof.
  split; [reflexivity|]. split.
  - rewrite bind_run. unfold login, modify. cbn beta iota.
    erewrite get_run by reflexivity. cbv zeta. cbn [fst sent].
    eexists. split; reflexivity.
  - rewrite bind_run. unfold login at 1, modify. cbn beta iota.
    rewrite bind_run. unfold login, modify. cbn beta iota.
    erewrite get_run by reflexivity. cbv zeta. cbn [fst sent].
    eexists. split; reflexivity.
Qed.

(** ** What a transport call can return *)

Lemma error_status_dec s : {error_status s} + {¬ error_status s}.
Proof.
  unfold error_status.
  destruct (Z_le_dec 400 s); [|right; lia].
  destruct (Z_lt_dec s 600); [left|right]; lia.
Qed.

Lemma safe_response_outcomes r error :
  (_safe_response r error = Ok r ∧ ¬ error_status (status_code r)) ∨
  (_safe_response r error = Raise LoginFailed ∧ status_code r = 401) ∨
  (∃ x, _safe_response r error = Raise (APIError x) ∧
        error_status (status_code r) ∧ status_code r ≠ 401).
Proof.
  destruct (error_status_dec (status_code r)) as [He|Hn].
  - destruct (Z.eq_dec (status_code r) 401) as [H4|H4].
    + right. left. split; [by apply safe_response_401|exact H4].
    + right. right. eexists. split; [by apply safe_response_error|done].
  - left. split; [by apply safe_response_fine|exact Hn].
Qed.

(** X13: a transport call ends in one of two ways.  Before [login] it
    raises [NameError] and nothing reaches the HTTP client.  After [login]
    it makes exactly one call to the client; what the client raises on its
    own escapes unchanged, the call being made outside the [try]; and when
    the client returns a response, the transport call returns that very
    response if its status is no error status, raises [LoginFailed] on 401
    and [APIError] on any other error status, so the [HTTPError] of
    [raise_for_status] never escapes. *)
Theorem transport_outcomes C path kwargs params w :
  let outcome (r : World * result Response) :=
    (auth w = None ∧ r = (w, Raise NameError)) ∨
    (∃ a rq, auth w = Some a ∧ req_auth rq = a ∧
       r.1 = mk_world (Some a) (sent w ++ [rq]) ∧
       match send C rq with
       | Raise e => r.2 = Raise e
       | Ok resp =>
           (r.2 = Ok resp ∧ ¬ error_status (status_code resp)) ∨
           (r.2 = Raise LoginFailed ∧ status_code resp = 401) ∨
           (∃ x, r.2 = Raise (APIError x) ∧
                 error_status (status_code resp) ∧ status_code resp ≠ 401)
       end) in
  outcome (get C path kwargs w) ∧ outcome (post C params path w).
Proof.
  intros outcome. unfold outcome. destruct (auth w) as [a|] eqn:Ha.
  - rewrite (get_run _ _ _ _ _ Ha), (post_run _ _ _ _ _ Ha). cbv zeta.
    rewrite Ha. split; right; exists a.
    + exists (mk_request GET (url_of path) (lookup_or_none kwargs "params")
                VNone a).
      do 3 (split; [reflexivity|]). cbn [snd].
      destruct (send C _) as [resp|e]; [|reflexivity].
      cbn [mbind result_bind]. apply safe_response_outcomes.
    + exists (mk_request POST (url_of path) params VNone a).
      do 3 (split; [reflexivity|]). cbn [snd].
      destruct (send C _) as [resp|e]; [|reflexivity].
      cbn [mbind result_bind]. apply safe_response_outcomes.
  - rewrite (get_before_login _ _ _ _ Ha), (post_before_login _ _ _ _ Ha).
    split; left; done.
Qed.

(** X19: [post] builds the same URL as [get] and applies the same error
    handling as a [get] that was given no error message; it hands its
    parameters to the HTTP client under the same [params] keyword as [get]
    does, with nothing under [data]: the two calls differ in the verb
    only. *)
Theorem post_like_get C w a params path :
  auth w = Some a →
  ∃ rp rg,
    sent (post C params path w).1 = sent w ++ [rp] ∧
    sent (get C path {[ "params" := params ]} w).1 = sent w ++ [rg] ∧
    req_verb rp = POST ∧ req_verb rg = GET ∧
    req_url rp = req_url rg ∧
    req_params rp = params ∧ req_params rg = params ∧
    req_data rp = VNone ∧ req_data rg = VNone ∧
    req_auth rp = req_auth rg ∧
    (post C params path w).2 = (r ← send C rp; _safe_response r VNone) ∧
    (get C path {[ "params" := params ]} w).2
      = (r ← send C rg; _safe_response r VNone).
Proof.
  intros Ha.
  rewrite (get_run _ _ _ _ _ Ha), (post_run _ _ _ _ _ Ha). cbn [fst snd sent].
  do 2 eexists. repeat split.
Qed.

Lemma post_like_get_witness :
  let params := VDict {[ "name" := VStr "rocq" ]} in
  ∃ rp rg,
    sent (post (fixed_client 500 VNone) params
            [SegStr "groups"; SegStr "create"] logged_in).1 = [rp] ∧
    sent (get (fixed_client 500 VNone) [SegStr "groups"; SegStr "create"]
            {[ "params" := params ]} logged_in).1 = [rg] ∧
    req_url rp = req_url rg ∧ req_params rp = req_params rg ∧
    (post (fixed_client 500 VNone) params
       [SegStr "groups"; SegStr "create"] logged_in).2
      = Raise (APIError None).
Proof.
  intros params.
  destruct (post_like_get (fixed_client 500 VNone) logged_in
              ("user", "secret") params [SegStr "groups"; SegStr "create"]
              eq_refl)
    as (rp & rg & H1 & H2 & _ & _ & H3 & H4 & H5 & _ & _ & _ & H6 & _).
  exists rp, rg. split; [exact H1|]. split; [exact H2|].
  split; [exact H3|]. split; [by rewrite H4, H5|].
  rewrite H6. reflexivity.
Defined.

(** X20: an exception the HTTP client raises on its own (on arguments it
    cannot encode, on a connection that fails) ends every resource
    operation with that exception, whatever the codec would do: the one
    call to the client is on record and nothing else changes. *)
Theorem client_errors_escape C o w a e :
  auth w = Some a →
  send C (mk_request GET (url_of (endpoint o)) VNone VNone a) = Raise e →
  run_operation C o w =
    (mk_world (Some a)
       (sent w ++ [mk_request GET (url_of (endpoint o)) VNone VNone a]),
     Raise e).
Proof.
  intros Ha Hr.
  destruct (run_operation_transport C o w) as [H1 H2].
  rewrite (get_for_operation _ _ _ _ Ha) in H1, H2. cbn [fst snd] in H1, H2.
  unfold request_of in H2. rewrite Hr in H2. cbn [mbind result_bind] in H2.
  rewrite (surjective_pairing (run_operation C o w)). by rewrite H1, H2.
Qed.

Lemma client_errors_escape_witness :
  run_operation (failing_client (OtherError "ConnectionError"))
    (GetTopic (SegInt 3)) logged_in =
    (mk_world (Some ("user", "secret"))
       [mk_request GET "https://convore.com/api/topics/3.json" VNone VNone
          ("user", "secret")],
     Raise (OtherError "ConnectionError")).
Proof.
  apply (client_errors_escape (failing_client (OtherError "ConnectionError"))
           (GetTopic (SegInt 3)) logged_in ("user", "secret")
           (OtherError "ConnectionError") eq_refl eq_refl).
Defined.

(** ** Elements that do not decode *)

Lemma for_in_collect_fails {S A B} (dec : A → result B)
    (body : list B → A → M S (list B)) good ys bad rest acc s e :
  (∀ acc x s, body acc x s =
     (s, match dec x with Ok y => Ok (acc ++ [y]) | Raise e => Raise e end)) →
  Forall2 (λ x y, dec x = Ok y) good ys →
  dec bad = Raise e →
  for_in (good ++ bad :: rest) acc body s = (s, Raise e).
Proof.
  intros Hbody Hgood Hbad. revert acc.
  induction Hgood as [|x y good ys Hx _ IH]; intros acc.
  - simpl. by rewrite bind_run, Hbody, Hbad.
  - simpl. rewrite bind_run, Hbody, Hx. apply IH.
Qed.

Lemma list_op_first_failure {T} C path key (dec : value → result T)
    (body : list T → value → M World (list T)) :
  (∀ acc x s, body acc x s =
     (s, match dec x with Ok y => Ok (acc ++ [y]) | Raise e => Raise e end)) →
  first_failure C path key dec
    (response ← get C path ∅;
     body_ ← lift (deserialize C (content response));
     envelope ← lift (getitem body_ key);
     items ← lift (iter envelope);
     for_in items [] body).
Proof.
  intros Hbody w w' resp m good ys bad rest e Hg Hd Hk Hgood Hbad.
  rewrite list_op_run, Hg, Hd. cbn [getitem]. rewrite Hk. cbn [iter].
  by eapply for_in_collect_fails.
Qed.

(** X6: in the five operations that return a list, the first element of the
    array that does not decode decides the outcome: its exception is the
    operation's, and the entities decoded before it are not returned. *)
Theorem first_failure_wins C (group_id topic_id : segment) :
  first_failure C [SegStr "groups"] "groups" decode_joined
    (Groups.get_user_groups C) ∧
  first_failure C [SegStr "groups"; group_id; SegStr "members"] "members"
    decode_member (Groups.get_group_members C group_id) ∧
  first_failure C [SegStr "groups"; group_id; SegStr "online"] "online"
    (decode User.__init__ User.import_from_api)
    (Groups.get_group_online_members C group_id) ∧
  first_failure C [SegStr "groups"; group_id; SegStr "topics"] "topics"
    (decode Topic.__init__ Topic.import_from_api)
    (Groups.get_group_topics C group_id) ∧
  first_failure C [SegStr "topics"; topic_id; SegStr "messages"] "messages"
    (decode Message.__init__ Message.import_from_api)
    (Topics.get_messages C topic_id).
Proof.
  repeat apply conj; apply list_op_first_failure; intros acc x s;
    first [apply collect_joined | apply collect_member
          | apply collect_decoded].
Qed.

Lemma first_failure_wins_witness :
  Topics.get_messages
    (fixed_client 200
       (VDict {[ "messages" :=
          VList [VDict sample_message;
                 VDict (delete "date_created" sample_message);
                 VInt 3] ]}))
    (SegInt 3) logged_in
  = (mk_world (Some ("user", "secret"))
       [mk_request GET (url_of [SegStr "topics"; SegInt 3; SegStr "messages"])
          VNone VNone ("user", "secret")],
     Raise TypeError).
Proof.
  destruct (first_failure_wins
              (fixed_client 200
                 (VDict {[ "messages" :=
                    VList [VDict sample_message;
                           VDict (delete "date_created" sample_message);
                           VInt 3] ]}))
              (SegInt 3) (SegInt 3)) as (_ & _ & _ & _ & H).
  eapply (H logged_in _ _ _ [VDict sample_message] _
            (VDict (delete "date_created" sample_message)) [VInt 3]
            TypeError (get_fixed_client _ _ _ status_200_fine) eq_refl eq_refl).
  - repeat constructor.
  - reflexivity.
Defined.

Lemma decode_user_dict m :
  decode User.__init__ User.import_from_api (VDict m) = Ok (decoded_user m).
Proof. reflexivity. Qed.

Lemma decode_user_not_dict v :
  ¬ is_dict v →
  decode User.__init__ User.import_from_api v = Raise AttributeError.
Proof.
  intros Hv. unfold decode. by rewrite (User_import_not_dict _ _ Hv).
Qed.

Lemma decode_member_wrapped v :
  wrapped_user v → ∃ u, decode_member v = Ok u.
Proof.
  intros (m & u & -> & Hu). unfold decode_member.
  rewrite dict_get_dict. unfold lookup_or_none. rewrite Hu. by eexists.
Qed.

Lemma decode_member_unwrapped v :
  ¬ wrapped_user v → decode_member v = Raise AttributeError.
Proof.
  intros Hv. unfold decode_member.
  destruct (is_dict_dec v) as [[m ->]|Hn].
  - rewrite dict_get_dict.
    destruct (is_dict_dec (lookup_or_none m "user")) as [[u Hu]|Hn].
    + exfalso. apply Hv. exists m, u. split; [reflexivity|].
      unfold lookup_or_none in Hu. destruct (m !! "user"); simpl in Hu;
        congruence.
    + by apply decode_user_not_dict.
  - by rewrite (dict_get_not_dict _ _ Hn).
Qed.

Lemma decode_member_ok_wrapped v u : decode_member v = Ok u → wrapped_user v.
Proof.
  intros Hu. destruct (is_dict_dec v) as [[m ->]|Hn].
  - unfold decode_member in Hu. rewrite dict_get_dict in Hu.
    destruct (is_dict_dec (lookup_or_none m "user")) as [[c Hc]|Hc].
    + exists m, c. split; [reflexivity|].
      unfold lookup_or_none in Hc. destruct (m !! "user"); simpl in Hc;
        congruence.
    + rewrite (decode_user_not_dict _ Hc) in Hu. discriminate.
  - unfold decode_member in Hu. rewrite (dict_get_not_dict _ _ Hn) in Hu.
    discriminate.
Qed.

Lemma members_all_wrapped items :
  Forall wrapped_user items →
  ∃ us, Forall2 (λ v u, decode_member v = Ok u) items us.
Proof.
  induction 1 as [|v items Hv _ [us IH]].
  - exists []. constructor.
  - destruct (decode_member_wrapped v Hv) as [u Hu].
    exists (u :: us). by constructor.
Qed.

Lemma members_some_unwrapped items :
  Exists (λ v, ¬ wrapped_user v) items →
  ∃ good ys bad rest,
    items = good ++ bad :: rest ∧
    Forall2 (λ v u, decode_member v = Ok u) good ys ∧
    decode_member bad = Raise AttributeError.
Proof.
  induction items as [|v items IH]; intros Hex; [by inversion Hex|].
  destruct (decode_member v) as [u|e] eqn:Hv.
  - apply Exists_cons in Hex as [Hex|Hex].
    + exfalso. apply Hex. by eapply decode_member_ok_wrapped.
    + destruct (IH Hex) as (good & ys & bad & rest & -> & Hg & Hb).
      exists (v :: good), (u :: ys), bad, rest.
      split; [reflexivity|]. split; [by constructor|exact Hb].
  - exists [], [], v, items. split; [reflexivity|]. split; [constructor|].
    destruct (decode_member v) as [u|e'] eqn:Hv'; [discriminate|].
    assert (Hn : ¬ wrapped_user v).
    { intros Hw. destruct (decode_member_wrapped v Hw) as [u Hu]. congruence. }
    rewrite <- Hv'. by apply decode_member_unwrapped.
Qed.

(** X15: [get_group_members] needs every element of the [members] array
    to be a mapping whose [user] key holds a mapping.  If all are, it
    returns one user per element; if one is not (a user mapping that is
    not wrapped under [user], say), it raises [AttributeError]. *)
Theorem members_need_wrapper C group_id w w' resp
    (m : gmap string value) items :
  get C [SegStr "groups"; group_id; SegStr "members"] ∅ w = (w', Ok resp) →
  deserialize C (content resp) = Ok (VDict m) →
  m !! "members" = Some (VList items) →
  (Forall wrapped_user items →
     ∃ us, Groups.get_group_members C group_id w = (w', Ok us) ∧
           length us = length items) ∧
  (Exists (λ v, ¬ wrapped_user v) items →
     Groups.get_group_members C group_id w = (w', Raise AttributeError)).
Proof.
  intros Hg Hd Hk. split.
  - intros Hall. destruct (members_all_wrapped items Hall) as [us Hus].
    exists us. split; [|symmetry; by eapply Forall2_length].
    unfold Groups.get_group_members. rewrite list_op_run, Hg, Hd.
    cbn [getitem]. rewrite Hk. cbn [iter].
    match goal with |- for_in ?l ?a0 ?b ?s0 = _ =>
      destruct (for_in_collect decode_member b
                  (λ acc x s, collect_member acc x s) l a0 s0) as [H1 H2];
      rewrite (surjective_pairing (for_in l a0 b s0)) end.
    rewrite H1. f_equal. apply H2. by exists us.
  - intros Hex.
    destruct (members_some_unwrapped items Hex)
      as (good & ys & bad & rest & -> & Hgood & Hbad).
    eapply (list_op_first_failure C _ "members" decode_member _
              (λ acc x s, collect_member acc x s)); eauto.
Qed.

Lemma members_need_wrapper_witness :
  (∃ us, Groups.get_group_members members_client (SegInt 7) logged_in
           = (mk_world (Some ("user", "secret"))
                [mk_request GET
                   (url_of [SegStr "groups"; SegInt 7; SegStr "members"])
                   VNone VNone ("user", "secret")], Ok us) ∧
         length us = 1%nat) ∧
  (Groups.get_group_members
     (fixed_client 200 (VDict {[ "members" := VList [VDict sample_user] ]}))
     (SegInt 7) logged_in).2 = Raise AttributeError.
Proof.
  split.
  - destruct (members_need_wrapper members_client (SegInt 7) logged_in _ _ _
                [VDict {[ "user" := VDict sample_user ]}]
                (get_fixed_client _ _ _ status_200_fine) eq_refl eq_refl)
      as [H _].
    apply H. repeat constructor. by exists {[ "user" := VDict sample_user ]}, sample_user.
  - assert (Hk : ({[ "members" := VList [VDict sample_user] ]}
                    : gmap string value) !! "members"
                 = Some (VList [VDict sample_user])) by reflexivity.
    destruct (members_need_wrapper
                (fixed_client 200
                   (VDict {[ "members" := VList [VDict sample_user] ]}))
                (SegInt 7) logged_in _ _ _ [VDict sample_user]
                (get_fixed_client _ _ _ status_200_fine) eq_refl Hk)
      as [_ H].
    rewrite H; [reflexivity|].
    apply Exists_cons_hd. intros (m & u & Hm & Hu).
    injection Hm as <-. vm_compute in Hu. discriminate.
Defined.

(** ** Decoding twice, and decoding what is not a mapping *)

Lemma Category_import_not_dict d o :
  ¬ is_dict d → Category.import_from_api d o = (o, Raise AttributeError).
Proof.
  intros Hd. unfold Category.import_from_api.
  rewrite bind_run, (dict_get_not_dict d _ Hd). reflexivity.
Qed.

(** X10: every decoder rejects an input that is not a mapping (null, a
    number, a string, an array) with [AttributeError], and leaves the entity
    exactly as it was. *)
Theorem non_mapping_rejected d :
  ¬ is_dict d →
  (∀ o, User.import_from_api d o = (o, Raise AttributeError)) ∧
  (∀ o, Group.import_from_api d o = (o, Raise AttributeError)) ∧
  (∀ o, Topic.import_from_api d o = (o, Raise AttributeError)) ∧
  (∀ o, Message.import_from_api d o = (o, Raise AttributeError)) ∧
  (∀ o, Category.import_from_api d o = (o, Raise AttributeError)).
Proof.
  intros Hd. repeat apply conj; intros o.
  - by apply User_import_not_dict.
  - by apply Group_import_not_dict.
  - by apply Topic_import_not_dict.
  - by apply Message_import_not_dict.
  - by apply Category_import_not_dict.
Qed.

Lemma non_mapping_rejected_witness :
  Group.import_from_api VNone Group.__init__
    = (Group.__init__, Raise AttributeError) ∧
  Message.import_from_api (VList [VDict sample_message]) Message.__init__
    = (Message.__init__, Raise AttributeError).
Proof.
  split.
  - apply (non_mapping_rejected VNone). intros [m Hm]. discriminate.
  - apply (non_mapping_rejected (VList [VDict sample_message])).
    intros [m Hm]. discriminate.
Defined.

Lemma friends_body_set_joined x b g :
  friends_body tt x (Group.set_joined b g) =
    (Group.set_joined b (friends_body tt x g).1, (friends_body tt x g).2).
Proof.
  unfold friends_body. rewrite !bind_run. unfold on_new.
  destruct (User.import_from_api x User.__init__) as [u [[]|e]];
    [|reflexivity].
  unfold Group.friends_append. cbn [Group.friends Group.set_joined].
  by destruct (Group.friends g).
Qed.

Lemma friends_loop_set_joined l b g :
  for_in l tt friends_body (Group.set_joined b g) =
    ((Group.set_joined b (for_in l tt friends_body g).1),
     (for_in l tt friends_body g).2).
Proof.
  revert g. induction l as [|x l IH]; intros g; [reflexivity|].
  cbn [for_in]. rewrite !bind_run, friends_body_set_joined.
  destruct (friends_body tt x g) as [g1 [[]|e]]; cbn [fst snd];
    [apply IH|reflexivity].
Qed.

(** X8: a decoding that returns overwrites every field it is responsible
    for, so nothing of the previous contents survives: the decoded group
    depends on the previous object through [joined] only (in particular
    the friends are replaced, not appended to), and the decoded user,
    topic and message do not depend on it at all. *)
Theorem decoding_overwrites (m : gmap string value) :
  (∀ g1 g2 g1', Group.import_from_api (VDict m) g1 = (g1', Ok tt) →
     Group.import_from_api (VDict m) g2
       = (Group.set_joined (Group.joined g2) g1', Ok tt)) ∧
  (∀ g g', Group.import_from_api (VDict m) g = (g', Ok tt) →
     Group.import_from_api (VDict m) g' = (g', Ok tt)) ∧
  (∀ o1 o2, User.import_from_api (VDict m) o1
            = User.import_from_api (VDict m) o2) ∧
  (∀ o1 o2 o1', Topic.import_from_api (VDict m) o1 = (o1', Ok tt) →
     Topic.import_from_api (VDict m) o2 = (o1', Ok tt)) ∧
  (∀ o1 o2 o1', Message.import_from_api (VDict m) o1 = (o1', Ok tt) →
     Message.import_from_api (VDict m) o2 = (o1', Ok tt)).
Proof.
  assert (HG : ∀ g1 g2 g1', Group.import_from_api (VDict m) g1 = (g1', Ok tt) →
     Group.import_from_api (VDict m) g2
       = (Group.set_joined (Group.joined g2) g1', Ok tt)).
  { intros g1 g2 g1' H.
    destruct (Group_import_ok_inv _ _ _ H) as (t1 & t2 & c & H1 & H2 & H3).
    rewrite (Group_import_dict m g1 t1 t2 c H1 H2 H3) in H.
    rewrite (Group_import_dict m g2 t1 t2 c H1 H2 H3).
    cbv zeta in *. destruct (m !! "friend_list") as [v|].
    - destruct (iter v) as [l|e]; [|discriminate].
      match type of H with for_in _ _ _ ?g0 = _ =>
        change (for_in l tt friends_body
                  (Group.set_joined (Group.joined g2) g0)
                = (Group.set_joined (Group.joined g2) g1', Ok tt)) end.
      rewrite friends_loop_set_joined, H. reflexivity.
    - injection H as <-. reflexivity. }
  repeat apply conj.
  - exact HG.
  - intros g g' H. rewrite (HG g g' g' H). f_equal.
    pose proof (Group_import_keeps_joined (VDict m) g) as Hk.
    rewrite H in Hk. cbn [fst] in Hk. by destruct g'.
  - intros o1 o2. by rewrite !User_import_dict.
  - intros o1 o2 o1' H.
    destruct (Topic_import_ok_inv _ _ _ H) as (t1 & t2 & c & H1 & H2 & H3).
    rewrite (Topic_import_dict m o1 t1 t2 c H1 H2 H3) in H.
    rewrite (Topic_import_dict m o2 t1 t2 c H1 H2 H3). exact H.
  - intros o1 o2 o1' H.
    destruct (Message_import_ok_inv _ _ _ H) as (t & c & H1 & H3).
    rewrite (Message_import_dict m o1 t c H1 H3) in H.
    rewrite (Message_import_dict m o2 t c H1 H3). exact H.
Qed.

Lemma decoding_overwrites_witness :
  ∃ g', Group.import_from_api (VDict sample_group) Group.__init__
          = (g', Ok tt) ∧
        Group.import_from_api (VDict sample_group) g' = (g', Ok tt) ∧
        (length <$> Group.friends g') = Some 2%nat.
Proof.
  destruct (Group.import_from_api (VDict sample_group) Group.__init__)
    as [g' [[]|e]] eqn:E.
  - exists g'. split; [reflexivity|]. split.
    + exact (proj1 (proj2 (decoding_overwrites sample_group)) _ _ E).
    + vm_compute in E. by injection E as <-.
  - vm_compute in E. discriminate.
Defined.

(** ** Failures inside [Group.import_from_api] *)

(** X9: a failing decoding is not rolled back.  When the conversion of
    [date_latest_message] fails (the key is missing, say), the exception is
    raised after [kind], [members_count], [name], [url] and [slug] have
    been overwritten from the mapping, while the eight other fields still
    hold what they held before the call. *)
Theorem group_failure_not_atomic m g e :
  utcfromtimestamp (lookup_or_none m "date_latest_message") = Raise e →
  ∃ g', Group.import_from_api (VDict m) g = (g', Raise e) ∧
    Group.kind g' = lookup_or_none m "kind" ∧
    Group.members_count g' = lookup_or_none m "members_count" ∧
    Group.name g' = lookup_or_none m "name" ∧
    Group.url g' = lookup_or_none m "url" ∧
    Group.slug g' = lookup_or_none m "slug" ∧
    Group.date_latest_message g' = Group.date_latest_message g ∧
    Group.date_created g' = Group.date_created g ∧
    Group.topics_count g' = Group.topics_count g ∧
    Group.unread g' = Group.unread g ∧
    Group.id g' = Group.id g ∧
    Group.creator g' = Group.creator g ∧
    Group.friends g' = Group.friends g ∧
    Group.joined g' = Group.joined g.
Proof.
  intros H. unfold Group.import_from_api. rewrite !dict_get_dict.
  cbn [mbind result_bind]. rewrite H.
  eexists. split; [reflexivity|]. repeat split.
Qed.

Lemma group_failure_not_atomic_witness :
  ∃ g', Group.import_from_api
          (VDict (delete "date_latest_message" sample_group))
          (Group.set_id (VInt 99) Group.__init__) = (g', Raise TypeError) ∧
        Group.name g' = VStr "Rocq" ∧ Group.id g' = VInt 99 ∧
        Group.friends g' = None.
Proof.
  assert (Ht : utcfromtimestamp
                 (lookup_or_none (delete "date_latest_message" sample_group)
                    "date_latest_message") = Raise TypeError)
    by (vm_compute; reflexivity).
  destruct (group_failure_not_atomic
              (delete "date_latest_message" sample_group)
              (Group.set_id (VInt 99) Group.__init__) TypeError Ht)
    as (g' & Hg & _ & _ & Hn & _ & _ & _ & _ & _ & _ & Hi & _ & Hf & _).
  exists g'. split; [exact Hg|]. split; [|split].
  - rewrite Hn. reflexivity.
  - rewrite Hi. reflexivity.
  - rewrite Hf. reflexivity.
Defined.

Lemma for_in_app {S A B} (l1 l2 : list A) (acc : B) (body : B → A → M S B) s :
  for_in (l1 ++ l2) acc body s =
    match for_in l1 acc body s with
    | (s', Ok acc') => for_in l2 acc' body s'
    | (s', Raise e) => (s', Raise e)
    end.
Proof.
  revert acc s. induction l1 as [|x l1 IH]; intros acc s; [reflexivity|].
  cbn [app for_in]. rewrite !bind_run.
  destruct (body acc x s) as [s1 [acc1|e]]; [apply IH|reflexivity].
Qed.

Lemma friends_loop_bad ms bad rest g fs :
  Group.friends g = Some fs → ¬ is_dict bad →
  for_in ((VDict <$> ms) ++ bad :: rest) tt friends_body g =
    (Group.set_friends (Some (fs ++ (decoded_user <$> ms))) g,
     Raise AttributeError).
Proof.
  intros Hf Hb. rewrite for_in_app, (friends_loop_dicts ms g fs Hf).
  cbn [for_in]. rewrite bind_run. unfold friends_body.
  rewrite bind_run. unfold on_new.
  by rewrite (User_import_not_dict bad User.__init__ Hb).
Qed.

Lemma iter_not_iterable v : not_iterable v → iter v = Raise TypeError.
Proof. by intros [->|[[b ->]|[n ->]]]. Qed.

(** X11: only an absent [friend_list] is tolerated.  For a group mapping
    whose timestamps convert and whose creator is a mapping: a
    [friend_list] that is present but null, a boolean or a number makes
    decoding raise [TypeError], with the friends left empty; an element of
    the array that is not a mapping makes it raise [AttributeError], with
    the friends decoded before that element left in the object. *)
Theorem friend_list_strict m g t1 t2 c :
  utcfromtimestamp (lookup_or_none m "date_latest_message") = Ok t1 →
  utcfromtimestamp (lookup_or_none m "date_created") = Ok t2 →
  m !! "creator" = Some (VDict c) →
  (∀ v, m !! "friend_list" = Some v → not_iterable v →
     ∃ g', Group.import_from_api (VDict m) g = (g', Raise TypeError) ∧
           Group.friends g' = Some []) ∧
  (∀ ms bad rest,
     m !! "friend_list" = Some (VList ((VDict <$> ms) ++ bad :: rest)) →
     ¬ is_dict bad →
     ∃ g', Group.import_from_api (VDict m) g = (g', Raise AttributeError) ∧
           Group.friends g' = Some (decoded_user <$> ms)).
Proof.
  intros H1 H2 H3. rewrite (Group_import_dict m g t1 t2 c H1 H2 H3). cbv zeta.
  split.
  - intros v -> Hv. rewrite (iter_not_iterable v Hv).
    eexists. split; reflexivity.
  - intros ms bad rest -> Hb. cbn [iter].
    erewrite friends_loop_bad by (reflexivity || exact Hb).
    eexists. split; reflexivity.
Qed.

Lemma friend_list_strict_witness :
  (∃ g', Group.import_from_api
           (VDict (<["friend_list" := VNone]> sample_group)) Group.__init__
           = (g', Raise TypeError) ∧
         Group.friends g' = Some []) ∧
  (∃ g', Group.import_from_api
           (VDict (<["friend_list" := VList [VDict sample_user; VStr "bob"]]>
                     sample_group)) Group.__init__
           = (g', Raise AttributeError) ∧
         Group.friends g' = Some [User.mk (VStr "a") VNone (VInt 1) VNone]).
Proof.
  split.
  - set (m := <["friend_list" := VNone]> sample_group).
    assert (H1 : utcfromtimestamp (lookup_or_none m "date_latest_message")
                 = Ok (gmtime 86400)) by (vm_compute; reflexivity).
    assert (H2 : utcfromtimestamp (lookup_or_none m "date_created")
                 = Ok (gmtime 0)) by (vm_compute; reflexivity).
    assert (H3 : m !! "creator" = Some (VDict sample_user))
      by (vm_compute; reflexivity).
    assert (H4 : m !! "friend_list" = Some VNone) by (vm_compute; reflexivity).
    destruct (friend_list_strict m Group.__init__ _ _ _ H1 H2 H3) as [H _].
    apply (H VNone H4). by left.
  - set (m := <["friend_list" := VList [VDict sample_user; VStr "bob"]]>
                sample_group).
    assert (H1 : utcfromtimestamp (lookup_or_none m "date_latest_message")
                 = Ok (gmtime 86400)) by (vm_compute; reflexivity).
    assert (H2 : utcfromtimestamp (lookup_or_none m "date_created")
                 = Ok (gmtime 0)) by (vm_compute; reflexivity).
    assert (H3 : m !! "creator" = Some (VDict sample_user))
      by (vm_compute; reflexivity).
    assert (H4 : m !! "friend_list"
                 = Some (VList ((VDict <$> [sample_user]) ++ [VStr "bob"])))
      by (vm_compute; reflexivity).
    destruct (friend_list_strict m Group.__init__ _ _ _ H1 H2 H3) as [_ H].
    destruct (H [sample_user] (VStr "bob") [] H4) as (g' & Hg & Hf).
    { intros [m' Hm]. discriminate. }
    exists g'. split; [exact Hg|]. rewrite Hf. reflexivity.
Defined.

(** ** Categories *)

Lemma Category_import_keeps_groups d :
  keeps Category.groups (Category.import_from_api d).
Proof.
  unfold Category.import_from_api.
  repeat first
    [ apply keeps_assign; intros ? ?; reflexivity
    | apply keeps_bind; [|intros ?] ].
Qed.

(** X12: [Category.import_from_api] never assigns [groups], and never reads
    a [groups] key: for every input and outcome the field is what it was
    before the call, so it is still [None] on a category that was just
    constructed, even when the mapping has a [groups] key. *)
Theorem category_groups_untouched :
  (∀ d o, Category.groups (Category.import_from_api d o).1
          = Category.groups o) ∧
  (∀ d, Category.groups (Category.import_from_api d Category.__init__).1
        = VNone) ∧
  (∀ m v o, Category.import_from_api (VDict (<["groups" := v]> m)) o
            = Category.import_from_api (VDict m) o).
Proof.
  split; [|split].
  - intros d o. apply Category_import_keeps_groups.
  - intros d. apply (Category_import_keeps_groups d Category.__init__).
  - intros m v o. unfold Category.import_from_api, dict_get.
    rewrite !lookup_insert_ne by done. reflexivity.
Qed.

(** ** Edges of the envelope *)

Lemma list_op_edges {T} C path key
    (body : list T → value → M World (list T)) :
  envelope_edges C path key
    (response ← get C path ∅;
     body_ ← lift (deserialize C (content response));
     envelope ← lift (getitem body_ key);
     items ← lift (iter envelope);
     for_in items [] body).
Proof.
  intros w w' resp m Hg Hd. split.
  - intros Hk. rewrite list_op_run, Hg, Hd. cbn [getitem]. by rewrite Hk.
  - intros v Hk Hv. rewrite list_op_run, Hg, Hd. cbn [getitem].
    by rewrite Hk, (iter_not_iterable v Hv).
Qed.

(** X7: in the five operations that return a list, an envelope key that
    holds the empty array gives the empty list, and one that holds null, a
    boolean or a number makes the operation raise [TypeError]. *)
Theorem envelope_empty_or_null C (group_id topic_id : segment) :
  envelope_edges C [SegStr "groups"] "groups" (Groups.get_user_groups C) ∧
  envelope_edges C [SegStr "groups"; group_id; SegStr "members"] "members"
    (Groups.get_group_members C group_id) ∧
  envelope_edges C [SegStr "groups"; group_id; SegStr "online"] "online"
    (Groups.get_group_online_members C group_id) ∧
  envelope_edges C [SegStr "groups"; group_id; SegStr "topics"] "topics"
    (Groups.get_group_topics C group_id) ∧
  envelope_edges C [SegStr "topics"; topic_id; SegStr "messages"] "messages"
    (Topics.get_messages C topic_id).
Proof. repeat apply conj; apply list_op_edges. Qed.

Lemma envelope_empty_or_null_witness :
  (Groups.get_user_groups (fixed_client 200 (VDict {[ "groups" := VList [] ]}))
     logged_in).2 = Ok [] ∧
  (Groups.get_user_groups (fixed_client 200 (VDict {[ "groups" := VNone ]}))
     logged_in).2 = Raise TypeError.
Proof.
  split.
  - destruct (envelope_empty_or_null
                (fixed_client 200 (VDict {[ "groups" := VList [] ]}))
                (SegInt 0) (SegInt 0)) as [H _].
    destruct (H logged_in _ _ _ (get_fixed_client _ _ _ status_200_fine)
                eq_refl) as [H1 _].
    by rewrite H1.
  - destruct (envelope_empty_or_null
                (fixed_client 200 (VDict {[ "groups" := VNone ]}))
                (SegInt 0) (SegInt 0)) as [H _].
    destruct (H logged_in _ _ _ (get_fixed_client _ _ _ status_200_fine)
                eq_refl) as [_ H2].
    rewrite (H2 VNone); [reflexivity|reflexivity|by left].
Defined.

(** X16: [Users.get_user] accepts any mapping under the [user] key: it
    returns the user whose four fields are read from that mapping, absent
    keys giving [None] (an empty mapping gives a user with no field set).
    Anything but a mapping under [user] raises [AttributeError]. *)
Theorem get_user_decodes C user_id w w' resp (m : gmap string value) :
  get C [SegStr "users"; user_id] ∅ w = (w', Ok resp) →
  deserialize C (content resp) = Ok (VDict m) →
  (∀ u, m !! "user" = Some (VDict u) →
     Users.get_user C user_id w =
       (w', Ok (User.mk (lookup_or_none u "username") (lookup_or_none u "url")
                  (lookup_or_none u "id") (lookup_or_none u "img")))) ∧
  (∀ v, m !! "user" = Some v → ¬ is_dict v →
     Users.get_user C user_id w = (w', Raise AttributeError)).
Proof.
  intros Hg Hd. split.
  - intros u Hu. unfold Users.get_user.
    rewrite single_op_run, Hg, Hd. cbn [getitem]. by rewrite Hu.
  - intros v Hv Hn. unfold Users.get_user.
    rewrite single_op_run, Hg, Hd. cbn [getitem]. rewrite Hv.
    by rewrite (decode_user_not_dict v Hn).
Qed.

Lemma get_user_decodes_witness :
  Users.get_user (fixed_client 200 (VDict {[ "user" := VDict ∅ ]}))
    (SegStr "me") logged_in
  = (mk_world (Some ("user", "secret"))
       [mk_request GET (url_of [SegStr "users"; SegStr "me"]) VNone VNone
          ("user", "secret")],
     Ok User.__init__).
Proof.
  destruct (get_user_decodes
              (fixed_client 200 (VDict {[ "user" := VDict ∅ ]}))
              (SegStr "me") logged_in _ _ _
              (get_fixed_client _ _ _ status_200_fine) eq_refl) as [H _].
  by rewrite (H ∅ eq_refl).
Defined.

(** ** Convenience methods *)

Lemma list_op_state {T} C path key (dec : value → result T)
    (body : list T → value → M World (list T)) w a :
  (∀ acc x s, body acc x s =
     (s, match dec x with Ok y => Ok (acc ++ [y]) | Raise e => Raise e end)) →
  auth w = Some a →
  ((response ← get C path ∅;
    body_ ← lift (deserialize C (content response));
    envelope ← lift (getitem body_ key);
    items ← lift (iter envelope);
    for_in items [] body) w).1
  = mk_world (Some a) (sent w ++ [mk_request GET (url_of path) VNone VNone a]).
Proof.
  intros Hbody Ha.
  destruct (list_op_transport C path key dec body w Hbody) as [H1 _].
  rewrite H1, (get_run _ _ _ _ _ Ha). cbv zeta. cbn [fst]. by rewrite Ha.
Qed.

(** X14: the convenience methods of an entity go to the endpoint of the
    entity's own [id].  On a group (topic) decoded from a mapping whose
    [id] is the integer [n], [members], [online_members] and [topics]
    ([messages]) each issue exactly one request, a GET on
    [groups/n/members], [groups/n/online] and [groups/n/topics]
    ([topics/n/messages]), and are the corresponding resource operation
    at [n]. *)
Theorem convenience_methods_use_own_id C py_str (m : gmap string value) n
    w a :
  m !! "id" = Some (VInt n) →
  auth w = Some a →
  (∀ g g', Group.import_from_api (VDict m) g = (g', Ok tt) →
     Group_members C py_str g' = Groups.get_group_members C (SegInt n) ∧
     Group_online_members C py_str g'
       = Groups.get_group_online_members C (SegInt n) ∧
     Group_topics C py_str g' = Groups.get_group_topics C (SegInt n) ∧
     sent (Group_members C py_str g' w).1 =
       sent w ++ [mk_request GET
                    (url_of [SegStr "groups"; SegInt n; SegStr "members"])
                    VNone VNone a] ∧
     sent (Group_online_members C py_str g' w).1 =
       sent w ++ [mk_request GET
                    (url_of [SegStr "groups"; SegInt n; SegStr "online"])
                    VNone VNone a] ∧
     sent (Group_topics C py_str g' w).1 =
       sent w ++ [mk_request GET
                    (url_of [SegStr "groups"; SegInt n; SegStr "topics"])
                    VNone VNone a]) ∧
  (∀ o o', Topic.import_from_api (VDict m) o = (o', Ok tt) →
     Topic_messages C py_str o' = Topics.get_messages C (SegInt n) ∧
     sent (Topic_messages C py_str o' w).1 =
       sent w ++ [mk_request GET
                    (url_of [SegStr "topics"; SegInt n; SegStr "messages"])
                    VNone VNone a]).
Proof.
  intros Hid Ha.
  assert (Hl : lookup_or_none m "id" = VInt n)
    by (unfold lookup_or_none; by rewrite Hid).
  split.
  - intros g g' H. apply Group_import_scalars in H.
    destruct H as (_ & _ & _ & _ & _ & _ & _ & Hg). rewrite Hl in Hg.
    unfold Group_members, Group_online_members, Group_topics.
    rewrite Hg. cbn [id_segment].
    repeat apply conj; try reflexivity.
    + unfold Groups.get_group_members.
      by erewrite list_op_state by (apply collect_member || exact Ha).
    + unfold Groups.get_group_online_members.
      by erewrite list_op_state by (apply collect_decoded || exact Ha).
    + unfold Groups.get_group_topics.
      by erewrite list_op_state by (apply collect_decoded || exact Ha).
  - intros o o' H. apply Topic_import_scalars in H.
    destruct H as (Ho & _). rewrite Hl in Ho.
    unfold Topic_messages. rewrite Ho. cbn [id_segment].
    split; [reflexivity|]. unfold Topics.get_messages.
    by erewrite list_op_state by (apply collect_decoded || exact Ha).
Qed.

Lemma convenience_methods_use_own_id_witness :
  ∃ g', Group.import_from_api (VDict sample_group) Group.__init__
          = (g', Ok tt) ∧
        sent (Group_topics (fixed_client 200 VNone) (λ _, "None") g'
                logged_in).1 =
          [mk_request GET "https://convore.com/api/groups/7/topics.json"
             VNone VNone ("user", "secret")].
Proof.
  destruct (Group.import_from_api (VDict sample_group) Group.__init__)
    as [g' [[]|e]] eqn:E; [|vm_compute in E; discriminate].
  exists g'. split; [reflexivity|].
  destruct (convenience_methods_use_own_id (fixed_client 200 VNone)
              (λ _, "None") sample_group 7 logged_in ("user", "secret")
              eq_refl eq_refl) as [H _].
  destruct (H _ _ E) as (_ & _ & _ & _ & _ & Ht). rewrite Ht. reflexivity.
Defined.

(** ** Path segments *)

Lemma string_app_assoc (a b c : string) : (a +:+ b) +:+ c = a +:+ (b +:+ c).
Proof.
  induction a as [|x a IH]; [reflexivity|].
  change (String x ((a +:+ b) +:+ c) = String x (a +:+ (b +:+ c))).
  f_equal. exact IH.
Qed.

(** X17: path segments are joined as they are, without escaping: a string
    segment that contains a slash gives the URL of the two segments it
    splits into, so the path is not recoverable from the URL.  With no
    segment at all the URL is the base followed by [.json]. *)
Theorem segments_not_escaped (a b : string) (rest : list segment) :
  url_of (SegStr (a +:+ "/" +:+ b) :: rest)
    = url_of (SegStr a :: SegStr b :: rest) ∧
  url_of [] = "https://convore.com/api/.json".
Proof.
  split; [|reflexivity]. unfold url_of. f_equal.
  rewrite !fmap_cons. cbn [str].
  destruct (str <$> rest) as [|r rs]; [reflexivity|].
  cbn [String.concat]. by rewrite !string_app_assoc.
Qed.

(** ** Timestamps are calendar dates *)

Lemma is_leap_true y :
  is_leap y = true <-> y mod 4 = 0 /\ (y mod 100 <> 0 \/ y mod 400 = 0).
Proof.
  unfold is_leap. rewrite andb_true_iff, orb_true_iff, negb_true_iff.
  rewrite !Z.eqb_eq, Z.eqb_neq. tauto.
Qed.

Lemma is_leap_false y :
  is_leap y = false <-> ~ (y mod 4 = 0 /\ (y mod 100 <> 0 \/ y mod 400 = 0)).
Proof.
  rewrite <- is_leap_true. destruct (is_leap y); split; congruence.
Qed.

Lemma valid_date_true y m d :
  valid_date y m d = true <-> 1 <= m <= 12 /\ 1 <= d <= days_in_month y m.
Proof.
  unfold valid_date. rewrite !andb_true_iff, !Z.leb_le. tauto.
Qed.

(** The month and the year adjustment that belong to a month index. *)
Ltac fix_month :=
  match goal with
  | Em : _ = (if ?k <? 10 then ?a else ?b) |- _ =>
      let v := eval vm_compute in (if k <? 10 then a else b) in
      change (if k <? 10 then a else b) with v in *;
      let w := eval vm_compute in (if v <=? 2 then 1 else 0) in
      change (if v <=? 2 then 1 else 0) with w in *
  end.

Ltac fix_ltb :=
  match goal with
  | |- context [2 <? ?v] =>
      let c := eval vm_compute in (2 <? v) in
      change (2 <? v) with c
  | _ => idtac
  end.

Ltac leap_cases :=
  match goal with
  | |- context [is_leap ?y] =>
      let Hl := fresh "Hl" in
      destruct (is_leap y) eqn:Hl;
      [apply is_leap_true in Hl | apply is_leap_false in Hl]
  | _ => idtac
  end.

(** [civil_from_days] inverts [ymd2ord]: the date it gives for the day
    [z] after the epoch is a date of the calendar, and its ordinal is
    [z + 719163], the ordinal of 1970-01-01 being 719163.  The proof goes
    through the twelve months of the year that begins in March. *)
Lemma civil_from_days_ok z y m d :
  civil_from_days z = (y, m, d) ->
  ymd2ord y m d = z + 719163 /\ valid_date y m d = true.
Proof.
  unfold civil_from_days. cbv zeta.
  set (z0 := z + 719468).
  set (era := z0 / 146097).
  set (doe := z0 - era * 146097).
  set (yoe := (doe - doe / 1460 + doe / 36524 - doe / 146096) / 365).
  set (doy := doe - (365 * yoe + yoe / 4 - yoe / 100)).
  set (mp := (5 * doy + 2) / 153).
  assert (Hdoe : 0 <= doe < 146097)
    by (unfold doe, era; Z.to_euclidean_division_equations; lia).
  assert (Hy : 0 <= yoe < 400 /\ 0 <= doy <= 365)
    by (unfold doy, yoe; Z.to_euclidean_division_equations; lia).
  assert (Hmp : 0 <= mp <= 11)
    by (unfold mp; Z.to_euclidean_division_equations; lia).
  assert (Hleap : doy = 365 -> is_leap (yoe + 1 + era * 400) = true).
  { intros H365. apply is_leap_true.
    unfold doy, yoe in *. Z.to_euclidean_division_equations. lia. }
  assert (Hd : 0 <= doy - (153 * mp + 2) / 5 <= 30)
    by (unfold mp; Z.to_euclidean_division_equations; lia).
  assert (Emp : mp = (5 * doy + 2) / 153) by reflexivity.
  assert (Edoy : doy = doe - (365 * yoe + yoe / 4 - yoe / 100))
    by reflexivity.
  assert (Eyoe : yoe = (doe - doe / 1460 + doe / 36524 - doe / 146096) / 365)
    by reflexivity.
  assert (Edoe : doe = z0 - era * 146097) by reflexivity.
  assert (Ez0 : z0 = z + 719468) by reflexivity.
  clearbody mp doy yoe doe era z0.
  intros E.
  assert (Ey : y = yoe + era * 400 +
                 (if (if mp <? 10 then mp + 3 else mp - 9) <=? 2
                  then 1 else 0)) by congruence.
  assert (Em : m = if mp <? 10 then mp + 3 else mp - 9) by congruence.
  assert (Ed : d = doy - (153 * mp + 2) / 5 + 1) by congruence.
  clear E.
  assert (Hcase : mp = 0 \/ mp = 1 \/ mp = 2 \/ mp = 3 \/ mp = 4 \/ mp = 5 \/
                  mp = 6 \/ mp = 7 \/ mp = 8 \/ mp = 9 \/ mp = 10 \/ mp = 11)
    by lia.
  assert (Hfeb : doy = 365 -> (yoe + 1 + era * 400) mod 4 = 0 /\
            ((yoe + 1 + era * 400) mod 100 <> 0 \/
             (yoe + 1 + era * 400) mod 400 = 0)).
  { intros H. apply is_leap_true. by apply Hleap. }
  clear Hleap. rewrite valid_date_true.
  do 11 (destruct Hcase as [->|Hcase];
    [ clear Hfeb; fix_month; subst y m d;
      unfold ymd2ord, days_before_year, days_before_month, days_in_month;
      fix_ltb; cbn [andb Z.eqb Pos.eqb orb];
      leap_cases;
      (split; [|split; [lia|]]);
      Z.to_euclidean_division_equations; lia | ]).
  revert Hcase; intros ->. fix_month. subst y m d.
  unfold ymd2ord, days_before_year, days_before_month, days_in_month.
  fix_ltb. cbn [andb Z.eqb Pos.eqb orb].
  split; [clear Hfeb; Z.to_euclidean_division_equations; lia|].
  split; [lia|].
  replace (yoe + era * 400 + 1) with (yoe + 1 + era * 400) by lia.
  destruct (is_leap (yoe + 1 + era * 400)) eqn:Hl.
  - clear Hfeb Hl. Z.to_euclidean_division_equations. lia.
  - assert (Hn : doy <> 365).
    { intros H365. apply Hfeb, is_leap_true in H365. congruence. }
    clear Hfeb Hl. Z.to_euclidean_division_equations. lia.
Qed.

Lemma days_in_month_bound y m : 28 <= days_in_month y m <= 31.
Proof.
  unfold days_in_month.
  destruct (m =? 2); [destruct (is_leap y); lia|].
  destruct ((m =? 4) || (m =? 6) || (m =? 9) || (m =? 11)); lia.
Qed.

Lemma days_before_month_bound y m :
  1 <= m <= 12 → 0 <= days_before_month y m <= 335.
Proof.
  intros Hm. unfold days_before_month.
  assert (m = 1 ∨ m = 2 ∨ m = 3 ∨ m = 4 ∨ m = 5 ∨ m = 6 ∨ m = 7 ∨ m = 8 ∨
          m = 9 ∨ m = 10 ∨ m = 11 ∨ m = 12) as Hc by lia.
  destruct (is_leap y);
    repeat (destruct Hc as [->|Hc]); try subst m; cbn; lia.
Qed.

Lemma time_of_day t :
  let s := t mod 86400 in
  (t / 86400) * 86400 + (s / 3600) * 3600 + (s mod 3600 / 60) * 60 + s mod 60
    = t ∧
  0 <= s / 3600 < 24 ∧ 0 <= s mod 3600 / 60 < 60 ∧ 0 <= s mod 60 < 60.
Proof.
  intros s. unfold s. clear s.
  pose proof (Z.div_mod t 86400 ltac:(lia)) as H1.
  pose proof (Z.mod_pos_bound t 86400 ltac:(lia)) as H2.
  set (r := t mod 86400) in *. set (q := t / 86400) in *.
  pose proof (Z.div_mod r 3600 ltac:(lia)) as H3.
  pose proof (Z.mod_pos_bound r 3600 ltac:(lia)) as H4.
  set (r2 := r mod 3600) in *. set (h := r / 3600) in *.
  pose proof (Z.div_mod r2 60 ltac:(lia)) as H5.
  pose proof (Z.mod_pos_bound r2 60 ltac:(lia)) as H6.
  set (mi := r2 / 60) in *. set (r3 := r2 mod 60) in *.
  assert (Hs : r mod 60 = r3).
  { unfold r3, r2. rewrite <- (Z.mod_mod_divide r 3600 60) by (exists 60; lia).
    reflexivity. }
  rewrite Hs. lia.
Qed.

Lemma days_before_year_low y : y <= 0 → days_before_year y <= -366.
Proof.
  unfold days_before_year. intros Hy. Z.to_euclidean_division_equations. lia.
Qed.

Lemma days_before_year_high y : 10000 <= y → 3652059 <= days_before_year y.
Proof.
  unfold days_before_year. intros Hy. Z.to_euclidean_division_equations. lia.
Qed.

Lemma valid_date_bounds y m d :
  valid_date y m d = true → 1 <= m <= 12 ∧ 1 <= d <= days_in_month y m.
Proof.
  unfold valid_date. intros H.
  apply andb_true_iff in H as [H H4]. apply andb_true_iff in H as [H H3].
  apply andb_true_iff in H as [H1 H2].
  apply Z.leb_le in H1, H2, H3, H4. lia.
Qed.

Lemma gmtime_ok t :
  timegm (gmtime t) = t ∧
  valid_date (year (gmtime t)) (month (gmtime t)) (day (gmtime t)) = true ∧
  0 <= hour (gmtime t) < 24 ∧ 0 <= minute (gmtime t) < 60 ∧
  0 <= second (gmtime t) < 60 ∧ microsecond (gmtime t) = 0.
Proof.
  unfold gmtime.
  destruct (civil_from_days (t / 86400)) as [[y m] d] eqn:E.
  destruct (civil_from_days_ok _ _ _ _ E) as [Ho Hv].
  unfold timegm. cbn [year month day hour minute second microsecond].
  rewrite Ho. pose proof (time_of_day t) as Ht. cbv zeta in Ht.
  repeat split; try exact Hv; lia.
Qed.

Lemma gmtime_year t :
  MIN_TIMESTAMP <= t <= MAX_TIMESTAMP → 1 <= year (gmtime t) <= 9999.
Proof.
  unfold MIN_TIMESTAMP, MAX_TIMESTAMP. intros Ht.
  unfold gmtime.
  destruct (civil_from_days (t / 86400)) as [[y m] d] eqn:E.
  destruct (civil_from_days_ok _ _ _ _ E) as [Ho Hv].
  cbn [year]. apply valid_date_bounds in Hv as [Hm Hd].
  pose proof (days_in_month_bound y m) as Hb.
  pose proof (days_before_month_bound y m Hm) as Hbm.
  assert (Hq : -719162 <= t / 86400 <= 2932896).
  { clear -Ht. Z.to_euclidean_division_equations. lia. }
  unfold ymd2ord in Ho.
  destruct (Z_le_gt_dec y 0) as [Hy|Hy].
  { pose proof (days_before_year_low y Hy). lia. }
  destruct (Z_le_gt_dec 10000 y) as [Hy'|Hy'].
  { pose proof (days_before_year_high y Hy'). lia. }
  lia.
Qed.

(** X18: the timestamp of a decoded entity is the UTC calendar date-time of
    its epoch seconds.  For epoch seconds [n] between 0001-01-01T00:00:00
    and 9999-12-31T23:59:59, [utcfromtimestamp] returns a valid date of the
    proleptic Gregorian calendar in the years 1..9999, with a time of day
    in range and no microseconds, whose POSIX timestamp ([calendar.timegm])
    is [n] again; a message decoded from a mapping with such a
    [date_created] carries exactly that date-time. *)
Theorem decoded_timestamp_roundtrip n :
  MIN_TIMESTAMP ≤ n ≤ MAX_TIMESTAMP →
  ∃ dt, utcfromtimestamp (VInt n) = Ok dt ∧
        timegm dt = n ∧
        valid_date (year dt) (month dt) (day dt) = true ∧
        1 ≤ year dt ≤ 9999 ∧
        0 ≤ hour dt < 24 ∧ 0 ≤ minute dt < 60 ∧ 0 ≤ second dt < 60 ∧
        microsecond dt = 0 ∧
        ∀ (m c : gmap string value) o,
          m !! "date_created" = Some (VInt n) →
          m !! "user" = Some (VDict c) →
          ∃ o', Message.import_from_api (VDict m) o = (o', Ok tt) ∧
                Message.date_created o' = Some dt.
Proof.
  intros Hn. exists (gmtime n).
  destruct (gmtime_ok n) as (Ht & Hv & Hh & Hm & Hs & Hu).
  split.
  { cbn [utcfromtimestamp]. unfold fromtimestamp_int.
    destruct Hn as [Hlo Hhi].
    apply Z.leb_le in Hlo. apply Z.leb_le in Hhi. by rewrite Hlo, Hhi. }
  repeat (split; [done || by apply gmtime_year|]).
  intros m c o Hd Hc.
  rewrite (Message_import_dict m o (gmtime n) c)
    by eauto using utcfromtimestamp_seconds.
  eexists. split; reflexivity.
Qed.

Lemma decoded_timestamp_roundtrip_witness :
  ∃ dt, utcfromtimestamp (VInt 1297436893) = Ok dt ∧ timegm dt = 1297436893 ∧
        dt = mk_datetime 2011 2 11 15 8 13 0.
Proof.
  destruct (decoded_timestamp_roundtrip 1297436893) as (dt & Hu & Ht & _).
  { unfold MIN_TIMESTAMP, MAX_TIMESTAMP. lia. }
  exists dt. split; [exact Hu|]. split; [exact Ht|].
  vm_compute in Hu. by injection Hu as <-.
Defined.
